(** * Server actions of the invoice dashboard ([app/lib/actions.ts])

    A shallow embedding of the four server actions [authenticate],
    [createInvoice], [updateInvoice] and [deleteInvoice], together with
    executable models of what they call: the JavaScript value coercions
    ([Number], the [*] operator, [Date.prototype.toISOString],
    [String.prototype.split]), the validation library (zod 3: [z.string],
    [z.coerce.number().gt], [z.enum], [z.object], [omit], [safeParse],
    [flatten]) and the framework collaborators ([sql], [revalidatePath],
    [redirect], [signIn]), whose calls are recorded in a trace.

    Layout: definitions first (modules [Js], [zod], then the collaborators
    and the actions), theorems afterwards. *)

From Stdlib Require Import ZArith Ascii String List Bool Lia SpecFloat.
From stdpp Require Import base option list strings gmap.

Local Open Scope string_scope.
Local Open Scope list_scope.
Local Open Scope Z_scope.

(* ===================================================================== *)
(** ** JavaScript values and coercions *)
(* ===================================================================== *)

Module Js.

(** *** Numbers

    A JavaScript number is an IEEE 754 binary64 value.  It is modelled by
    the Standard Library's [spec_float] with precision 53 and exponent
    bound 1024; every operation below rounds to nearest, ties to even. *)

Definition prec : Z := 53.
Definition emax : Z := 1024.

Definition number : Type := spec_float.

Definition NaN : number := S754_nan.

(** The exact integer [z], not yet rounded; [s] is the sign given to zero. *)
Definition exact_int (s : bool) (z : Z) : spec_float :=
  match z with
  | Z0 => S754_zero s
  | Zpos p => S754_finite s p 0
  | Zneg p => S754_finite (negb s) p 0
  end.

(** The number value of the rational [n / d] ([0 <= n], [0 < d]) with sign
    [s]: one correctly rounded division of two exact operands. *)
Definition number_of_ratio (s : bool) (n d : Z) : number :=
  SFdiv prec emax (exact_int s n) (exact_int false d).

Definition number_of_Z (z : Z) : number :=
  number_of_ratio (z <? 0) (Z.abs z) 1.

(** [x * y] on numbers. *)
Definition mul (x y : number) : number := SFmul prec emax x y.

(** [x <= y] on numbers; false as soon as one side is [NaN]. *)
Definition le (x y : number) : bool := SFleb x y.

Definition isNaN (x : number) : bool :=
  match x with S754_nan => true | _ => false end.

(** *** Values

    The values that reach the actions: what [FormData.get] returns (a
    string, a [File], or [null]), [undefined] for a missing property, and
    numbers produced by coercion.  A string is a sequence of code units,
    here restricted to the 8-bit range. *)

Inductive value : Type :=
| undefined
| null
| Str (s : string)
| Num (n : number)
| File (name : string).

(** *** [Number(string)]: the StringNumericLiteral grammar *)

Definition code (c : ascii) : N := N_of_ascii c.

(** StrWhiteSpaceChar: TAB, LF, VT, FF, CR, SP, NBSP. *)
Definition isStrWhiteSpaceChar (c : ascii) : bool :=
  let n := code c in
  ((9 <=? n) && (n <=? 13) || (n =? 32) || (n =? 160))%N.

Definition isDecimalDigit (c : ascii) : bool :=
  let n := code c in ((48 <=? n) && (n <=? 57))%N.

(** The value of a digit in the given radix, [None] when [c] is no digit
    of that radix. *)
Definition digitValue (radix : Z) (c : ascii) : option Z :=
  let n := Z.of_N (code c) in
  let v := if (48 <=? n) && (n <=? 57) then Some (n - 48)
           else if (97 <=? n) && (n <=? 102) then Some (n - 87)
           else if (65 <=? n) && (n <=? 70) then Some (n - 55)
           else None in
  match v with
  | Some d => if d <? radix then Some d else None
  | None => None
  end.

(** The mathematical value of a non-empty run of digits; [None] if the
    run is empty or holds a character that is no digit of the radix. *)
Fixpoint digitsValue_from (radix acc : Z) (l : list ascii) : option Z :=
  match l with
  | [] => Some acc
  | c :: l' =>
      match digitValue radix c with
      | Some d => digitsValue_from radix (radix * acc + d) l'
      | None => None
      end
  end.

Definition digitsValue (radix : Z) (l : list ascii) : option Z :=
  match l with
  | [] => None
  | _ => digitsValue_from radix 0 l
  end.

(** Longest prefix satisfying [p], and the rest. *)
Fixpoint span (p : ascii -> bool) (l : list ascii) : list ascii * list ascii :=
  match l with
  | [] => ([], [])
  | c :: l' =>
      if p c then let '(a, b) := span p l' in (c :: a, b) else ([], l)
  end.

Fixpoint dropWhile (p : ascii -> bool) (l : list ascii) : list ascii :=
  match l with
  | [] => []
  | c :: l' => if p c then dropWhile p l' else l
  end.

Definition trim (l : list ascii) : list ascii :=
  rev (dropWhile isStrWhiteSpaceChar (rev (dropWhile isStrWhiteSpaceChar l))).

(** ExponentPart_opt at the end of a literal: the exponent, [None] when
    what is left is neither empty nor a well-formed exponent part. *)
Definition exponentPart (l : list ascii) : option Z :=
  match l with
  | [] => Some 0
  | c :: l' =>
      if (code c =? 101)%N || (code c =? 69)%N then
        match l' with
        | s :: l'' =>
            if (code s =? 43)%N then digitsValue 10 l''
            else if (code s =? 45)%N then Z.opp <$> digitsValue 10 l''
            else digitsValue 10 l'
        | [] => None
        end
      else None
  end.

(** The number value of [m * 10 ^ e] with sign [s]. *)
Definition number_of_decimal (s : bool) (m e : Z) : number :=
  if 0 <=? e then number_of_ratio s (m * 10 ^ e) 1
  else number_of_ratio s m (10 ^ (- e)).

(** StrUnsignedDecimalLiteral, with the sign already read. *)
Definition strUnsignedDecimalLiteral (s : bool) (l : list ascii) : number :=
  if decide (l = list_ascii_of_string "Infinity") then S754_infinity s
  else
    let '(ip, r1) := span isDecimalDigit l in
    let '(fp, r2) :=
      match r1 with
      | c :: r => if (code c =? 46)%N then span isDecimalDigit r else ([], r1)
      | [] => ([], r1)
      end in
    match digitsValue 10 (ip ++ fp), exponentPart r2 with
    | Some m, Some ex => number_of_decimal s m (ex - Z.of_nat (length fp))
    | _, _ => NaN
    end.

(** NonDecimalIntegerLiteral: [0x], [0o], [0b] (either case), unsigned. *)
Definition nonDecimalIntegerLiteral (l : list ascii) : option number :=
  match l with
  | z :: p :: ds =>
      if (code z =? 48)%N then
        let radix :=
          if (code p =? 120)%N || (code p =? 88)%N then Some 16
          else if (code p =? 111)%N || (code p =? 79)%N then Some 8
          else if (code p =? 98)%N || (code p =? 66)%N then Some 2
          else None in
        match radix with
        | Some r =>
            Some (match digitsValue r ds with
                  | Some m => number_of_ratio false m 1
                  | None => NaN
                  end)
        | None => None
        end
      else None
  | _ => None
  end.

(** StringToNumber: white space is trimmed, the empty string is [+0], and
    whatever does not match the grammar is [NaN]. *)
Definition StringToNumber (str : string) : number :=
  let l := trim (list_ascii_of_string str) in
  match l with
  | [] => S754_zero false
  | c :: l' =>
      match nonDecimalIntegerLiteral l with
      | Some n => n
      | None =>
          if (code c =? 43)%N then strUnsignedDecimalLiteral false l'
          else if (code c =? 45)%N then strUnsignedDecimalLiteral true l'
          else strUnsignedDecimalLiteral false l
      end
  end.

(** [Number(v)], that is ToNumber: [undefined] is [NaN], [null] is [+0],
    and an object such as a [File] goes through its string form
    ["[object File]"], which is no numeric literal. *)
Definition Number (v : value) : number :=
  match v with
  | undefined => NaN
  | null => S754_zero false
  | Str s => StringToNumber s
  | Num n => n
  | File _ => StringToNumber "[object File]"
  end.

(** The binary [*] operator: both operands go through ToNumber. *)
Definition times (a b : value) : value := Num (mul (Number a) (Number b)).

(** *** [String.prototype.split] with a one-code-unit separator *)

(** [split_from cur l]: [cur] holds, reversed, the piece being read. *)
Fixpoint split_from (sep : ascii) (cur : list ascii) (l : list ascii)
  : list string :=
  match l with
  | [] => [string_of_list_ascii (rev cur)]
  | c :: l' =>
      if Ascii.eqb c sep
      then string_of_list_ascii (rev cur) :: split_from sep [] l'
      else split_from sep (c :: cur) l'
  end.

Definition split (s : string) (sep : ascii) : list string :=
  split_from sep [] (list_ascii_of_string s).

(** Indexing an array of strings: [undefined] out of range. *)
Definition index (a : list string) (i : nat) : value :=
  match a !! i with
  | Some s => Str s
  | None => undefined
  end.

(** *** [Date.prototype.toISOString]

    A time value is a number of milliseconds since the epoch, in UTC. *)

Definition msPerDay : Z := 86400000.

(** Year, month (1..12) and day of month (1..31) of the day numbered
    [days] since 1970-01-01, in the proleptic Gregorian calendar. *)
Definition civil_from_days (days : Z) : Z * Z * Z :=
  let z := days + 719468 in
  let era := z / 146097 in
  let doe := z - era * 146097 in
  let yoe := (doe - doe / 1460 + doe / 36524 - doe / 146096) / 365 in
  let doy := doe - (365 * yoe + yoe / 4 - yoe / 100) in
  let mp := (5 * doy + 2) / 153 in
  let d := doy - (153 * mp + 2) / 5 + 1 in
  let m := if mp <? 10 then mp + 3 else mp - 9 in
  let y := yoe + era * 400 + (if m <=? 2 then 1 else 0) in
  (y, m, d).

Definition digitChar (n : Z) : ascii := ascii_of_N (Z.to_N (48 + n mod 10)).

(** The last [width] decimal digits of [n], most significant first. *)
Fixpoint pad (width : nat) (n : Z) : list ascii :=
  match width with
  | O => []
  | S w => pad w (n / 10) ++ [digitChar n]
  end.

(** Years 0..9999 take four digits, all others a sign and six digits. *)
Definition isoYear (y : Z) : list ascii :=
  if (0 <=? y) && (y <=? 9999) then pad 4 y
  else (if y <? 0 then "-"%char else "+"%char) :: pad 6 (Z.abs y).

(** The part [YYYY-MM-DD] of the ISO form. *)
Definition isoDate (t : Z) : list ascii :=
  let '(y, m, d) := civil_from_days (t / msPerDay) in
  isoYear y ++ ["-"%char] ++ pad 2 m ++ ["-"%char] ++ pad 2 d.

(** The part [HH:mm:ss.sssZ] of the ISO form. *)
Definition isoTime (t : Z) : list ascii :=
  let ms := t mod msPerDay in
  pad 2 (ms / 3600000) ++ [":"%char] ++ pad 2 (ms / 60000 mod 60)
    ++ [":"%char] ++ pad 2 (ms / 1000 mod 60) ++ ["."%char]
    ++ pad 3 (ms mod 1000) ++ ["Z"%char].

Definition toISOString (t : Z) : string :=
  string_of_list_ascii (isoDate t ++ ["T"%char] ++ isoTime t).

End Js.

(* ===================================================================== *)
(** ** The validation library (zod 3) *)
(* ===================================================================== *)

Module zod.

Import Js.

Inductive ZodIssueCode : Type := invalid_type | invalid_enum_value | too_small.

Record ZodIssue : Type := mkIssue {
  issue_code : ZodIssueCode;
  issue_path : list string;
  issue_message : string
}.

(** [getParsedType], as it is named in messages. *)
Definition getParsedType (v : value) : string :=
  match v with
  | undefined => "undefined"
  | null => "null"
  | Str _ => "string"
  | Num n => if isNaN n then "nan" else "number"
  | File _ => "object"
  end.

(** [util.joinValues]: the options quoted and separated by [" | "]. *)
Fixpoint joinValues (vs : list string) : string :=
  match vs with
  | [] => ""
  | [v] => "'" +:+ v +:+ "'"
  | v :: vs' => "'" +:+ v +:+ "' | " +:+ joinValues vs'
  end.

(** The default error map, for the two codes that have no message of
    their own here. *)
Definition defaultInvalidType (expected : string) (data : value) : string :=
  match data with
  | undefined => "Required"
  | _ => "Expected " +:+ expected +:+ ", received " +:+ getParsedType data
  end.

Definition defaultInvalidEnumValue (options : list string) (received : string)
  : string :=
  "Invalid enum value. Expected " +:+ joinValues options
    +:+ ", received '" +:+ received +:+ "'".

(** The error map built from the creation parameter
    [{ invalid_type_error }]: it replaces the message of an [invalid_type]
    issue whose data is not [undefined], and nothing else. *)
Definition invalidTypeMessage (invalid_type_error : option string)
    (expected : string) (data : value) : string :=
  match data, invalid_type_error with
  | undefined, _ => defaultInvalidType expected data
  | _, Some m => m
  | _, None => defaultInvalidType expected data
  end.

(** A [.gt(value, { message })] check of a number schema. *)
Record ZodNumberCheck : Type := mkMin {
  min_value : number;
  min_inclusive : bool;
  min_message : string
}.

(** The schemas the actions build. *)
Inductive ZodType : Type :=
| ZodString (invalid_type_error : option string)
| ZodNumber (coerce : bool) (checks : list ZodNumberCheck)
| ZodEnum (values : list string) (invalid_type_error : option string).

(** An object schema: its shape, in key order. *)
Definition ZodObject : Type := list (string * ZodType).

(** [schema.gt(value, { message })]. *)
Definition gt (t : ZodType) (v : number) (message : string) : ZodType :=
  match t with
  | ZodNumber c checks => ZodNumber c (checks ++ [mkMin v false message])
  | _ => t
  end.

(** [schema.omit(mask)]: the shape without the masked keys. *)
Definition omit (mask : list string) (o : ZodObject) : ZodObject :=
  filter (fun kv => kv.1 ∉ mask) o.

Inductive ParseStatus : Type := valid | dirty | aborted.

(** What [_parse] returns, with the issues it added to the context. *)
Record ParseReturn : Type := mkParse {
  status : ParseStatus;
  parsed : value;
  issues : list ZodIssue
}.

Definition INVALID (i : ZodIssue) : ParseReturn := mkParse aborted undefined [i].
Definition OK (v : value) : ParseReturn := mkParse valid v [].

(** The issues of the checks that [n] fails: [n <= value] fails a strict
    minimum, [n < value] an inclusive one. *)
Definition tooSmall (c : ZodNumberCheck) (n : number) : bool :=
  if min_inclusive c then SFltb n (min_value c) else le n (min_value c).

Definition runChecks (path : list string) (checks : list ZodNumberCheck)
    (n : number) : list ZodIssue :=
  omap (fun c => if tooSmall c n
                 then Some (mkIssue too_small path (min_message c))
                 else None) checks.

(** [schema._parse(input)] at the given path. *)
Definition _parse (t : ZodType) (path : list string) (data : value)
  : ParseReturn :=
  match t with
  | ZodString msg =>
      match data with
      | Str _ => OK data
      | _ => INVALID (mkIssue invalid_type path
                        (invalidTypeMessage msg "string" data))
      end
  | ZodNumber coerce checks =>
      let input := if coerce then Num (Number data) else data in
      match input with
      | Num n =>
          if isNaN n
          then INVALID (mkIssue invalid_type path
                          (defaultInvalidType "number" input))
          else
            let iss := runChecks path checks n in
            mkParse (match iss with [] => valid | _ => dirty end) input iss
      | _ => INVALID (mkIssue invalid_type path
                        (defaultInvalidType "number" input))
      end
  | ZodEnum values msg =>
      match data with
      | Str s =>
          if decide (s ∈ values) then OK data
          else INVALID (mkIssue invalid_enum_value path
                          (defaultInvalidEnumValue values s))
      | _ => INVALID (mkIssue invalid_type path
                        (invalidTypeMessage msg (joinValues values) data))
      end
  end.

(** Property access on an object literal: [undefined] when absent. *)
Definition prop (o : gmap string value) (k : string) : value :=
  default undefined (o !! k).

(** The object schema parses every key of its shape, in order, whatever
    the others returned. *)
Definition parseShape (o : ZodObject) (data : gmap string value)
  : list (string * ParseReturn) :=
  map (fun kv => (kv.1, _parse kv.2 [kv.1] (prop data kv.1))) o.

(** [ParseStatus.mergeObjectSync]: aborted as soon as a key is, dirty if
    one is dirty; keys whose value is [undefined] are left out. *)
Definition mergeStatus (rs : list (string * ParseReturn)) : ParseStatus :=
  if existsb (fun r => match status r.2 with aborted => true | _ => false end) rs
  then aborted
  else if existsb (fun r => match status r.2 with dirty => true | _ => false end) rs
  then dirty
  else valid.

Definition mergeValue (rs : list (string * ParseReturn)) : gmap string value :=
  foldl (fun acc r => match parsed r.2 with
                      | undefined => acc
                      | v => <[r.1 := v]> acc
                      end) ∅ rs.

Inductive SafeParseReturn : Type :=
| success (data : gmap string value)
| failure (error : list ZodIssue).

Definition safeParse (o : ZodObject) (data : gmap string value)
  : SafeParseReturn :=
  let rs := parseShape o data in
  match mergeStatus rs with
  | valid => success (mergeValue rs)
  | _ => failure (concat (map (fun r => issues r.2) rs))
  end.

(** [error.flatten().fieldErrors]: the messages of the issues, grouped by
    the first element of their path, in issue order. *)
Definition fieldErrors (error : list ZodIssue) : gmap string (list string) :=
  foldl (fun acc i =>
           match issue_path i with
           | k :: _ => <[k := default [] (acc !! k) ++ [issue_message i]]> acc
           | [] => acc
           end) ∅ error.

End zod.

(** The library's entry points, under the name the source imports. *)
Module z.

Import zod.

Definition coerce_number : ZodType := ZodNumber true [].

Definition enum (values : list string) (invalid_type_error : option string)
  : ZodType :=
  ZodEnum values invalid_type_error.

Definition object (shape : list (string * ZodType)) : ZodObject := shape.

Definition string (invalid_type_error : option String.string) : ZodType :=
  ZodString invalid_type_error.

End z.

(* ===================================================================== *)
(** ** Form data, the invoice table and the collaborators *)
(* ===================================================================== *)

Import Js zod.

(** *** [FormData] *)

Inductive FormDataEntryValue : Type :=
| entry_string (s : string)
| entry_file (name : string).

(** The entries of a form, in order; a name may occur more than once. *)
Definition FormData : Type := list (string * FormDataEntryValue).

(** [formData.get(name)]: the first value of that name, else [null]. *)
Fixpoint get (formData : FormData) (name : string) : value :=
  match formData with
  | [] => null
  | (k, v) :: rest =>
      if String.eqb k name
      then match v with entry_string s => Str s | entry_file f => File f end
      else get rest name
  end.

(** *** The [invoices] table and the three statements sent to it *)

Record Invoice : Type := mkInvoice {
  inv_id : string;
  inv_customer_id : value;
  inv_amount : value;
  inv_status : value;
  inv_date : value
}.

(** The tagged templates of the source, with their bound parameters. *)
Inductive Statement : Type :=
| INSERT_INTO_invoices (customer_id amount status date : value)
| UPDATE_invoices_SET (customer_id amount status : value) (WHERE_id : string)
| DELETE_FROM_invoices (WHERE_id : string).

(** What a statement that succeeds does to the table; [fresh] is the
    identifier the storage assigns to an inserted row. *)
Definition execute (fresh : string) (q : Statement) (table : list Invoice)
  : list Invoice :=
  match q with
  | INSERT_INTO_invoices c a s d => table ++ [mkInvoice fresh c a s d]
  | UPDATE_invoices_SET c a s id =>
      map (fun r => if String.eqb (inv_id r) id
                    then mkInvoice (inv_id r) c a s (inv_date r)
                    else r) table
  | DELETE_FROM_invoices id =>
      filter (fun r => inv_id r ≠ id) table
  end.

(** *** Effects: thrown values, trace, world *)

Inductive Thrown : Type :=
| AuthError (type : string)
| NEXT_REDIRECT (url : string)
| Error (msg : string).

Inductive Event : Type :=
| ev_signIn (provider : string) (formData : FormData)
| ev_sql (q : Statement)
| ev_revalidatePath (path : string)
| ev_redirect (url : string).

Record World : Type := mkWorld {
  invoices : list Invoice;
  trace : list Event
}.

(** How the collaborators answer: whether [signIn] and a statement raise
    (and what), the identifier given to a new row, and the clock. *)
Record Collaborators : Type := mkCollaborators {
  signIn_raises : string -> FormData -> option Thrown;
  sql_raises : list Invoice -> Statement -> option Thrown;
  sql_fresh_id : list Invoice -> string;
  Date_now : Z
}.

Inductive Completion (A : Type) : Type :=
| Return (a : A)
| Throw (e : Thrown).
Arguments Return {A} a.
Arguments Throw {A} e.

Definition Action (A : Type) : Type := World -> Completion A * World.

Definition ret {A} (a : A) : Action A := fun w => (Return a, w).

Definition throw {A} (e : Thrown) : Action A := fun w => (Throw e, w).

Definition bind {A B} (c : Action A) (k : A -> Action B) : Action B :=
  fun w => match c w with
           | (Return a, w') => k a w'
           | (Throw e, w') => (Throw e, w')
           end.

(** [try { body } catch (error) { handler }] *)
Definition try_catch {A} (body : Action A) (handler : Thrown -> Action A)
  : Action A :=
  fun w => match body w with
           | (Return a, w') => (Return a, w')
           | (Throw e, w') => handler e w'
           end.

Declare Scope action_scope.
Delimit Scope action_scope with action.
Notation "x <- c ;; k" := (bind c (fun x => k))
  (at level 100, c at next level, k at level 200, right associativity)
  : action_scope.
Notation "c ;; k" := (bind c (fun _ => k))
  (at level 100, k at level 200, right associativity) : action_scope.
Local Open Scope action_scope.

Definition log (e : Event) : Action unit :=
  fun w => (Return tt, mkWorld (invoices w) (trace w ++ [e])).

Section Collaborators.

Variable env : Collaborators.

(** [await signIn(provider, formData)] *)
Definition signIn (provider : string) (formData : FormData) : Action unit :=
  log (ev_signIn provider formData) ;;
  match signIn_raises env provider formData with
  | Some e => throw e
  | None => ret tt
  end.

(** [await sql`...`]: the statement either raises and leaves the table as
    it was, or is executed. *)
Definition sql (q : Statement) : Action unit :=
  log (ev_sql q) ;;
  fun w =>
    match sql_raises env (invoices w) q with
    | Some e => (Throw e, w)
    | None =>
        (Return tt,
         mkWorld (execute (sql_fresh_id env (invoices w)) q (invoices w))
                 (trace w))
    end.

(** [revalidatePath(path)] *)
Definition revalidatePath (path : string) : Action unit :=
  log (ev_revalidatePath path).

(** [redirect(url)] never returns: it raises the framework's redirect
    signal. *)
Definition redirect {A} (url : string) : Action A :=
  log (ev_redirect url) ;; throw (NEXT_REDIRECT url).

(* ===================================================================== *)
(** ** The actions *)
(* ===================================================================== *)

(** The function's own [return] inside [catch] is its result; when the
    [try] block completes it falls off the end and yields [undefined]. *)
Definition authenticate (prevState : option string) (formData : FormData)
  : Action (option string) :=
  try_catch
    (signIn "credentials" formData ;; ret None)
    (fun error =>
       match error with
       | AuthError type =>
           if String.eqb type "CredentialsSignin"
           then ret (Some "Invalid credentials.")
           else ret (Some "Something went wrong.")
       | _ => throw error
       end).

Definition FormSchema : ZodObject :=
  z.object
    [ ("id", z.string None);
      ("customerId", z.string (Some "Please select a customer"));
      ("amount", gt z.coerce_number (number_of_Z 0)
                    "Please enter an amount greater than $0.");
      ("status", z.enum ["paid"; "pending"]
                    (Some "Please select an invoice status"));
      ("date", z.string None) ].

Definition CreateInvoice : ZodObject := omit ["id"; "date"] FormSchema.

Record State : Type := mkState {
  errors : option (gmap string (list string));
  message : option string
}.

(** The object literal handed to [safeParse]. *)
Definition rawFields (formData : FormData) : gmap string value :=
  <["status" := get formData "status"]>
    (<["amount" := get formData "amount"]>
       (<["customerId" := get formData "customerId"]> ∅)).

(** A [return] inside [catch] is modelled by [Some result] coming out of
    the [try_catch]; [None] means the [try] block completed. *)
Definition createInvoice (prevState : State) (formData : FormData)
  : Action State :=
  let validatedFields := safeParse CreateInvoice (rawFields formData) in
  match validatedFields with
  | failure error =>
      ret {| errors := Some (fieldErrors error);
             message := Some "Missing Fields. Failed to create invoices." |}
  | success data =>
      let customerId := prop data "customerId" in
      let amount := prop data "amount" in
      let status := prop data "status" in
      let amountInCents := times amount (Num (number_of_Z 100)) in
      let date := index (split (toISOString (Date_now env)) "T") 0 in
      returned <-
        try_catch
          (sql (INSERT_INTO_invoices customerId amountInCents status date) ;;
           ret None)
          (fun error =>
             ret (Some {| errors := None;
                          message := Some "Database Error: Failed to create invoice" |})) ;;
      match returned with
      | Some result => ret result
      | None =>
          revalidatePath "/dashboard/invoices" ;;
          redirect "/dashboard/invoices"
      end
  end.

Definition UpdateInvoice : ZodObject := omit ["id"; "date"] FormSchema.

Definition updateInvoice (id : string) (prevState : State)
    (formData : FormData) : Action State :=
  let validatedFields := safeParse UpdateInvoice (rawFields formData) in
  match validatedFields with
  | failure error =>
      ret {| errors := Some (fieldErrors error);
             message := Some "Missing Fields. Failed to update invoice" |}
  | success data =>
      let customerId := prop data "customerId" in
      let amount := prop data "amount" in
      let status := prop data "status" in
      let amountInCents := times amount (Num (number_of_Z 100)) in
      returned <-
        try_catch
          (sql (UPDATE_invoices_SET customerId amountInCents status id) ;;
           ret None)
          (fun error =>
             ret (Some {| errors := None;
                          message := Some "Database Error: Failed to update database" |})) ;;
      match returned with
      | Some result => ret result
      | None =>
          revalidatePath "/dashboard/invoices" ;;
          redirect "/dashboard/invoices"
      end
  end.

Definition deleteInvoice (id : string) : Action unit :=
  sql (DELETE_FROM_invoices id) ;;
  revalidatePath "/dashboard/invoices".

End Collaborators.

(* ===================================================================== *)
(** ** Notions used to state the properties *)
(* ===================================================================== *)

(** Whether a schema accepts the fields extracted from a form. *)
Definition accepts (o : ZodObject) (formData : FormData) : bool :=
  match safeParse o (rawFields formData) with
  | success _ => true
  | failure _ => false
  end.

(** The per-field errors carried by a returned result, if any. *)
Definition returnedErrors (r : Completion State * World)
  : option (gmap string (list string)) :=
  match r.1 with
  | Return st => errors st
  | Throw _ => None
  end.

(** The messages listed under [field] in a returned result; empty when
    the result has no errors or none for that field. *)
Definition errorsOf (field : string) (r : Completion State * World)
  : list string :=
  default [] (returnedErrors r ≫= (.!! field)).

(** The messages of the issues whose path starts with [k]. *)
Definition messagesAt (k : string) (error : list ZodIssue) : list string :=
  omap (fun i => match issue_path i with
                 | k' :: _ => if decide (k' = k) then Some (issue_message i)
                              else None
                 | [] => None
                 end) error.

(** The day of the time value [t], as [YYYY-MM-DD]. *)
Definition isoDay (t : Z) : string := string_of_list_ascii (isoDate t).

(** The calendar day of the time value [t] on a host whose
    [getTimezoneOffset()] is [offset] minutes (UTC minus local time): the
    day of the local time [t - offset * 60000].  New York in winter has
    offset 300, Tokyo has offset -540, a host on UTC has offset 0. *)
Definition systemDay (offset : Z) (t : Z) : string :=
  isoDay (t - offset * 60000).

(** The number of days from 1970-01-01 to the given civil date (the
    inverse direction of [civil_from_days]). *)
Definition days_from_civil (y m d : Z) : Z :=
  let y' := if m <=? 2 then y - 1 else y in
  let era := y' / 400 in
  let yoe := y' - era * 400 in
  let doy := (153 * (if 2 <? m then m - 3 else m + 9) + 2) / 5 + d - 1 in
  let doe := yoe * 365 + yoe / 4 - yoe / 100 + doy in
  era * 146097 + doe - 719468.

(** The number the schema coerces the amount field to. *)
Definition coercedAmount (formData : FormData) : number :=
  Number (get formData "amount").

(** The statements the two writing actions send for an accepted form. *)
Definition amountInCents (formData : FormData) : value :=
  Num (mul (coercedAmount formData) (number_of_Z 100)).

Definition insertStatement (env : Collaborators) (formData : FormData)
  : Statement :=
  INSERT_INTO_invoices (get formData "customerId") (amountInCents formData)
    (get formData "status") (Str (isoDay (Date_now env))).

Definition updateStatement (id : string) (formData : FormData) : Statement :=
  UPDATE_invoices_SET (get formData "customerId") (amountInCents formData)
    (get formData "status") id.

(** The three field schemas left in the shape after [omit]. *)
Definition customerIdSchema : ZodType :=
  ZodString (Some "Please select a customer").
Definition amountSchema : ZodType :=
  ZodNumber true [mkMin (S754_zero false) false
                    "Please enter an amount greater than $0."].
Definition statusSchema : ZodType :=
  ZodEnum ["paid"; "pending"] (Some "Please select an invoice status").

(** The issues of the three fields, in shape order, and the object a
    successful parse hands back. *)
Definition validationIssues (fd : FormData) : list ZodIssue :=
  issues (_parse customerIdSchema ["customerId"] (get fd "customerId"))
  ++ issues (_parse amountSchema ["amount"] (get fd "amount"))
  ++ issues (_parse statusSchema ["status"] (get fd "status")).

Definition validatedData (fd : FormData) : gmap string value :=
  <["status" := get fd "status"]>
    (<["amount" := Num (Number (get fd "amount"))]>
       (<["customerId" := get fd "customerId"]> ∅)).

(** The statements among the events of a trace, in order. *)
Definition statements (t : list Event) : list Statement :=
  omap (fun e => match e with ev_sql q => Some q | _ => None end) t.

(** *** Sample collaborators, worlds and forms, for concrete runs *)

(** Collaborators that never raise; the clock reads 2026-11-03T00:00:00.123Z. *)
Definition quietEnv : Collaborators :=
  {| signIn_raises := fun _ _ => None;
     sql_raises := fun _ _ => None;
     sql_fresh_id := fun _ => "inv-new";
     Date_now := 1793664000123 |}.

(** A database that refuses every statement. *)
Definition brokenDbEnv : Collaborators :=
  {| signIn_raises := fun _ _ => None;
     sql_raises := fun _ _ => Some (Error "connection refused");
     sql_fresh_id := fun _ => "inv-new";
     Date_now := 1793664000123 |}.

(** A provider whose answer depends on the submitted form: no entry signs
    in, a [password] entry first is a wrong password, an [email] entry
    first is a provider failure, anything else breaks the connection. *)
Definition pickyAuthEnv : Collaborators :=
  {| signIn_raises := fun _ fd =>
       match fd with
       | [] => None
       | (k, _) :: _ =>
           if String.eqb k "password" then Some (AuthError "CredentialsSignin")
           else if String.eqb k "email" then Some (AuthError "CallbackRouteError")
           else Some (Error "fetch failed")
       end;
     sql_raises := fun _ _ => None;
     sql_fresh_id := fun _ => "inv-new";
     Date_now := 1793664000123 |}.

Definition emptyWorld : World := mkWorld [] [].

(** A table holding two invoices. *)
Definition twoInvoices : World :=
  mkWorld
    [ mkInvoice "inv-42" (Str "c1") (Num (number_of_Z 1000)) (Str "pending")
        (Str "2026-01-15");
      mkInvoice "inv-43" (Str "c3") (Num (number_of_Z 500)) (Str "paid")
        (Str "2026-02-01") ]
    [].

Definition noState : State := mkState None None.

(** A form with the three fields as strings. *)
Definition form (customerId amount status : string) : FormData :=
  [ ("customerId", entry_string customerId);
    ("amount", entry_string amount);
    ("status", entry_string status) ].

(** The world after more events. *)
Definition logged (w : World) (es : list Event) : World :=
  mkWorld (invoices w) (trace w ++ es).

(** *** Notions for the further properties *)

(** The events a run added to the trace of the world it started in. *)
Definition added {A} (w : World) (r : Completion A * World) : list Event :=
  drop (length (trace w)) (trace r.2).

(** A row as the writing actions mean to produce it: a string as customer
    reference, a number that is not [NaN] as amount, one of the two
    statuses, a string as date. *)
Definition wellFormedRow (r : Invoice) : bool :=
  match inv_customer_id r, inv_amount r, inv_status r, inv_date r with
  | Str _, Num n, Str s, Str _ =>
      negb (isNaN n) && bool_decide (s ∈ ["paid"; "pending"])
  | _, _, _, _ => false
  end.

(** The fields of a form that the schema finds fault with. *)
Definition customerIdInvalid (fd : FormData) : bool :=
  match get fd "customerId" with Str _ => false | _ => true end.

Definition amountInvalid (fd : FormData) : bool :=
  isNaN (coercedAmount fd) || le (coercedAmount fd) (S754_zero false).

Definition statusInvalid (fd : FormData) : bool :=
  match get fd "status" with
  | Str s => negb (bool_decide (s ∈ ["paid"; "pending"]))
  | _ => true
  end.

(** The row an accepted form inserts. *)
Definition insertedRow (env : Collaborators) (table : list Invoice)
    (fd : FormData) : Invoice :=
  mkInvoice (sql_fresh_id env table) (get fd "customerId") (amountInCents fd)
    (get fd "status") (Str (isoDay (Date_now env))).

(* ===================================================================== *)
(** ** Theorems *)
(* ===================================================================== *)

(** *** The schema and the extracted fields *)

Lemma CreateInvoice_shape :
  CreateInvoice =
    [ ("customerId", customerIdSchema);
      ("amount", amountSchema);
      ("status", statusSchema) ].
Proof. reflexivity. Qed.

Lemma prop_rawFields_customerId fd :
  prop (rawFields fd) "customerId" = get fd "customerId".
Proof. unfold prop, rawFields. by simplify_map_eq. Qed.

Lemma prop_rawFields_amount fd :
  prop (rawFields fd) "amount" = get fd "amount".
Proof. unfold prop, rawFields. by simplify_map_eq. Qed.

Lemma prop_rawFields_status fd :
  prop (rawFields fd) "status" = get fd "status".
Proof. unfold prop, rawFields. by simplify_map_eq. Qed.

(** [formData.get] yields a string, a file or [null]: never [undefined],
    never a number. *)
Lemma get_cases fd k :
  get fd k = null \/ (exists s, get fd k = Str s) \/ (exists f, get fd k = File f).
Proof.
  induction fd as [|[k' v] fd IH]; cbn; [by left|].
  destruct (String.eqb k' k); [|exact IH].
  destruct v; right; [left|right]; eauto.
Qed.

(** *** The three field parsers *)

Lemma parse_customerId path fd :
  _parse customerIdSchema path (get fd "customerId") =
    match get fd "customerId" with
    | Str s => OK (Str s)
    | _ => INVALID (mkIssue invalid_type path "Please select a customer")
    end.
Proof.
  destruct (get_cases fd "customerId") as [H|[[s H]|[f H]]]; by rewrite H.
Qed.

Lemma parse_amount path v :
  _parse amountSchema path v =
    let n := Number v in
    if isNaN n
    then INVALID (mkIssue invalid_type path "Expected number, received nan")
    else if le n (S754_zero false)
         then mkParse dirty (Num n)
                [mkIssue too_small path "Please enter an amount greater than $0."]
         else OK (Num n).
Proof.
  cbn. destruct (isNaN (Number v)) eqn:Hnan; [done|].
  unfold runChecks, tooSmall. cbn.
  by destruct (le (Number v) (S754_zero false)).
Qed.

Lemma parse_status path fd :
  _parse statusSchema path (get fd "status") =
    match get fd "status" with
    | Str s =>
        if decide (s ∈ ["paid"; "pending"]) then OK (Str s)
        else INVALID (mkIssue invalid_enum_value path
               ("Invalid enum value. Expected 'paid' | 'pending', received '"
                  +:+ s +:+ "'"))
    | _ => INVALID (mkIssue invalid_type path "Please select an invoice status")
    end.
Proof.
  destruct (get_cases fd "status") as [H|[[s H]|[f H]]]; by rewrite H.
Qed.

Lemma safeParse_rawFields fd :
  safeParse CreateInvoice (rawFields fd) =
    match validationIssues fd with
    | [] => success (validatedData fd)
    | error => failure error
    end.
Proof.
  unfold safeParse, validationIssues, validatedData.
  rewrite CreateInvoice_shape. unfold parseShape. cbn [map fst snd].
  rewrite prop_rawFields_customerId, prop_rawFields_amount, prop_rawFields_status.
  rewrite parse_customerId, parse_amount, parse_status.
  cbv zeta.
  destruct (get fd "customerId") eqn:Hc;
  destruct (isNaN (Number (get fd "amount"))) eqn:Hn;
  destruct (le (Number (get fd "amount")) (S754_zero false)) eqn:Hl;
  destruct (get fd "status") eqn:Hs; try reflexivity;
  try (case_decide; reflexivity).
Qed.

(** *** The day part of the ISO form *)

Lemma split_from_sep sep cur a b :
  Forall (fun c => c <> sep) a ->
  split_from sep cur (a ++ sep :: b) =
    string_of_list_ascii (rev cur ++ a) :: split_from sep [] b.
Proof.
  intros Ha. revert cur.
  induction Ha as [|c a Hc Ha IH]; intros cur; cbn.
  - rewrite Ascii.eqb_refl. by rewrite app_nil_r.
  - destruct (Ascii.eqb_spec c sep) as [->|_]; [done|].
    rewrite IH. cbn. by rewrite <- app_assoc.
Qed.

Lemma digitChar_not_T n : digitChar n <> "T"%char.
Proof.
  unfold digitChar. intros H.
  apply (f_equal N_of_ascii) in H.
  rewrite N_ascii_embedding in H.
  - cbn in H. pose proof (Z.mod_pos_bound n 10). lia.
  - pose proof (Z.mod_pos_bound n 10). lia.
Qed.

Lemma pad_not_T w n : Forall (fun c => c <> "T"%char) (pad w n).
Proof.
  revert n. induction w as [|w IH]; intros n; cbn; [constructor|].
  apply Forall_app. split; [apply IH|].
  constructor; [apply digitChar_not_T | constructor].
Qed.

Lemma isoYear_not_T y : Forall (fun c => c <> "T"%char) (isoYear y).
Proof.
  unfold isoYear. destruct (_ && _); [apply pad_not_T|].
  constructor; [by destruct (y <? 0) | apply pad_not_T].
Qed.

Lemma isoDate_not_T t : Forall (fun c => c <> "T"%char) (isoDate t).
Proof.
  unfold isoDate. destruct (civil_from_days (t / msPerDay)) as [[y m] d].
  rewrite !Forall_app.
  repeat split; auto using pad_not_T, isoYear_not_T;
    by constructor.
Qed.

Lemma toISOString_day t :
  index (split (toISOString t) "T") 0 = Str (isoDay t).
Proof.
  unfold split, toISOString, isoDay.
  rewrite list_ascii_of_string_of_list_ascii.
  change (isoDate t ++ ["T"%char] ++ isoTime t)
    with (isoDate t ++ "T"%char :: isoTime t).
  rewrite split_from_sep by apply isoDate_not_T.
  reflexivity.
Qed.

(** *** What the actions do, case by case *)

Lemma UpdateInvoice_CreateInvoice : UpdateInvoice = CreateInvoice.
Proof. reflexivity. Qed.

Lemma prop_validatedData fd :
  prop (validatedData fd) "customerId" = get fd "customerId"
  /\ prop (validatedData fd) "amount" = Num (Number (get fd "amount"))
  /\ prop (validatedData fd) "status" = get fd "status".
Proof. unfold prop, validatedData. by simplify_map_eq. Qed.

Lemma createInvoice_run env st fd w :
  createInvoice env st fd w =
    match validationIssues fd with
    | [] =>
        let q := insertStatement env fd in
        match sql_raises env (invoices w) q with
        | Some e =>
            (Return {| errors := None;
                       message := Some "Database Error: Failed to create invoice" |},
             logged w [ev_sql q])
        | None =>
            (Throw (NEXT_REDIRECT "/dashboard/invoices"),
             mkWorld (execute (sql_fresh_id env (invoices w)) q (invoices w))
               (trace w ++ [ev_sql q; ev_revalidatePath "/dashboard/invoices";
                            ev_redirect "/dashboard/invoices"]))
        end
    | error =>
        (Return {| errors := Some (fieldErrors error);
                   message := Some "Missing Fields. Failed to create invoices." |},
         w)
    end.
Proof.
  unfold createInvoice. rewrite safeParse_rawFields.
  destruct (validationIssues fd) as [|i error]; [|reflexivity].
  destruct (prop_validatedData fd) as (-> & -> & ->).
  rewrite toISOString_day.
  change (times (Num (Number (get fd "amount"))) (Num (number_of_Z 100)))
    with (amountInCents fd).
  fold (insertStatement env fd).
  unfold bind, try_catch, sql, log, bind, revalidatePath, redirect, log, bind,
    throw, ret, logged. cbn.
  destruct (sql_raises env (invoices w) (insertStatement env fd)); cbn;
    [reflexivity|].
  by rewrite <- !app_assoc.
Qed.

Lemma updateInvoice_run env id st fd w :
  updateInvoice env id st fd w =
    match validationIssues fd with
    | [] =>
        let q := updateStatement id fd in
        match sql_raises env (invoices w) q with
        | Some e =>
            (Return {| errors := None;
                       message := Some "Database Error: Failed to update database" |},
             logged w [ev_sql q])
        | None =>
            (Throw (NEXT_REDIRECT "/dashboard/invoices"),
             mkWorld (execute (sql_fresh_id env (invoices w)) q (invoices w))
               (trace w ++ [ev_sql q; ev_revalidatePath "/dashboard/invoices";
                            ev_redirect "/dashboard/invoices"]))
        end
    | error =>
        (Return {| errors := Some (fieldErrors error);
                   message := Some "Missing Fields. Failed to update invoice" |},
         w)
    end.
Proof.
  unfold updateInvoice. rewrite UpdateInvoice_CreateInvoice, safeParse_rawFields.
  destruct (validationIssues fd) as [|i error]; [|reflexivity].
  destruct (prop_validatedData fd) as (-> & -> & ->).
  change (times (Num (Number (get fd "amount"))) (Num (number_of_Z 100)))
    with (amountInCents fd).
  fold (updateStatement id fd).
  unfold bind, try_catch, sql, log, bind, revalidatePath, redirect, log, bind,
    throw, ret, logged. cbn.
  destruct (sql_raises env (invoices w) (updateStatement id fd)); cbn;
    [reflexivity|].
  by rewrite <- !app_assoc.
Qed.

(** *** Grouping the issues by field *)

(** Case analysis on the three extracted fields and the two tests made on
    the coerced amount. *)
Ltac field_cases fd :=
  destruct (get fd "customerId");
  destruct (isNaN (Number (get fd "amount")));
  destruct (le (Number (get fd "amount")) (S754_zero false));
  destruct (get fd "status");
  try case_decide.

Lemma fieldErrors_from_lookup error k (acc : gmap string (list string)) :
  foldl (fun acc i =>
           match issue_path i with
           | k' :: _ => <[k' := default [] (acc !! k') ++ [issue_message i]]> acc
           | [] => acc
           end) acc error !! k =
    match messagesAt k error with
    | [] => acc !! k
    | ms => Some (default [] (acc !! k) ++ ms)
    end.
Proof.
  revert acc. induction error as [|i error IH]; intros acc; [done|].
  cbn [foldl]. rewrite IH. unfold messagesAt. cbn [omap list_omap].
  destruct (issue_path i) as [|k' p].
  - done.
  - destruct (decide (k' = k)) as [->|Hne].
    + rewrite lookup_insert_eq. cbn.
      destruct (omap _ error); cbn; [done|].
      by rewrite <- app_assoc.
    + by rewrite lookup_insert_ne.
Qed.

Lemma fieldErrors_lookup error k :
  fieldErrors error !! k =
    match messagesAt k error with
    | [] => None
    | ms => Some ms
    end.
Proof.
  unfold fieldErrors. rewrite fieldErrors_from_lookup.
  by destruct (messagesAt k error).
Qed.

Lemma messagesAt_customerId fd :
  messagesAt "customerId" (validationIssues fd) =
    match get fd "customerId" with
    | Str _ => []
    | _ => ["Please select a customer"]
    end.
Proof.
  unfold validationIssues.
  rewrite parse_customerId, parse_amount, parse_status. cbv zeta.
  field_cases fd; reflexivity.
Qed.

Lemma messagesAt_amount fd :
  messagesAt "amount" (validationIssues fd) =
    if isNaN (Number (get fd "amount"))
    then ["Expected number, received nan"]
    else if le (Number (get fd "amount")) (S754_zero false)
         then ["Please enter an amount greater than $0."]
         else [].
Proof.
  unfold validationIssues.
  rewrite parse_customerId, parse_amount, parse_status. cbv zeta.
  field_cases fd; reflexivity.
Qed.

Lemma messagesAt_status fd :
  messagesAt "status" (validationIssues fd) =
    match get fd "status" with
    | Str s =>
        if decide (s ∈ ["paid"; "pending"]) then []
        else ["Invalid enum value. Expected 'paid' | 'pending', received '"
                +:+ s +:+ "'"]
    | _ => ["Please select an invoice status"]
    end.
Proof.
  unfold validationIssues.
  rewrite parse_customerId, parse_amount, parse_status. cbv zeta.
  field_cases fd; reflexivity.
Qed.

(** Validation fails exactly when some field has a message. *)
Lemma validationIssues_nil fd :
  validationIssues fd = [] <->
    messagesAt "customerId" (validationIssues fd) = []
    /\ messagesAt "amount" (validationIssues fd) = []
    /\ messagesAt "status" (validationIssues fd) = [].
Proof.
  split; [by intros ->|].
  unfold validationIssues.
  rewrite parse_customerId, parse_amount, parse_status. cbv zeta.
  field_cases fd; cbn; intros (? & ? & ?); first [reflexivity | discriminate].
Qed.

Lemma accepts_validationIssues fd :
  accepts CreateInvoice fd = true <-> validationIssues fd = [].
Proof.
  unfold accepts. rewrite safeParse_rawFields.
  by destruct (validationIssues fd).
Qed.

(** The messages a returned result lists under a field are those of the
    validation issues of that field. *)
Lemma errorsOf_createInvoice k env st fd w :
  errorsOf k (createInvoice env st fd w) = messagesAt k (validationIssues fd).
Proof.
  rewrite createInvoice_run. unfold errorsOf, returnedErrors.
  destruct (validationIssues fd) as [|i error] eqn:He.
  - cbv zeta. by destruct (sql_raises _ _ _).
  - cbn -[fieldErrors messagesAt]. rewrite fieldErrors_lookup.
    by destruct (messagesAt k (i :: error)).
Qed.

Lemma errorsOf_updateInvoice k env id st fd w :
  errorsOf k (updateInvoice env id st fd w) = messagesAt k (validationIssues fd).
Proof.
  rewrite updateInvoice_run. unfold errorsOf, returnedErrors.
  destruct (validationIssues fd) as [|i error] eqn:He.
  - cbv zeta. by destruct (sql_raises _ _ _).
  - cbn -[fieldErrors messagesAt]. rewrite fieldErrors_lookup.
    by destruct (messagesAt k (i :: error)).
Qed.

(** *** Concrete runs of the model *)

Example Number_of_strings :
  Number (Str "") = S754_zero false
  /\ Number (Str "  42 ") = number_of_Z 42
  /\ Number (Str "-0") = S754_zero true
  /\ Number (Str "1e3") = number_of_Z 1000
  /\ Number (Str ".5") = number_of_ratio false 1 2
  /\ Number (Str "0x1F") = number_of_Z 31
  /\ Number (Str "-Infinity") = S754_infinity true
  /\ Number (Str "12px") = NaN
  /\ Number (Str "1,5") = NaN
  /\ Number (Str "-0x1F") = NaN
  /\ Number null = S754_zero false
  /\ Number (File "logo.png") = NaN.
Proof. by vm_compute. Qed.

Example toISOString_of_times :
  toISOString 0 = "1970-01-01T00:00:00.000Z"
  /\ toISOString (-1) = "1969-12-31T23:59:59.999Z"
  /\ toISOString 951868799999 = "2000-02-29T23:59:59.999Z"
  /\ toISOString 4107542400000 = "2100-03-01T00:00:00.000Z"
  /\ toISOString 1793664000123 = "2026-11-03T00:00:00.123Z"
  /\ toISOString 8640000000000000 = "+275760-09-13T00:00:00.000Z"
  /\ split "2026-11-03T00:00:00.123Z" "T" = ["2026-11-03"; "00:00:00.123Z"].
Proof. by vm_compute. Qed.

(** Scenario A of the specification. *)
Example createInvoice_scenario_A :
  createInvoice quietEnv noState (form "c1" "250.00" "pending") emptyWorld =
    (Throw (NEXT_REDIRECT "/dashboard/invoices"),
     mkWorld
       [mkInvoice "inv-new" (Str "c1") (Num (number_of_Z 25000))
          (Str "pending") (Str "2026-11-03")]
       [ev_sql (INSERT_INTO_invoices (Str "c1") (Num (number_of_Z 25000))
                  (Str "pending") (Str "2026-11-03"));
        ev_revalidatePath "/dashboard/invoices";
        ev_redirect "/dashboard/invoices"]).
Proof. by vm_compute. Qed.

(** Scenario E of the specification: deleting a row that does not exist. *)
Example deleteInvoice_scenario_E :
  deleteInvoice quietEnv "inv-99" twoInvoices =
    (Return tt,
     mkWorld (invoices twoInvoices)
       [ev_sql (DELETE_FROM_invoices "inv-99");
        ev_revalidatePath "/dashboard/invoices"]).
Proof. by vm_compute. Qed.

(* ===================================================================== *)
(** ** The claims *)
(* ===================================================================== *)

(** *** C1: amounts that are not positive numbers *)

(** C1 (as amended).  Whenever the amount field coerces to a number that is
    [<= 0] or to [NaN], [createInvoice] and [updateInvoice] return a
    validation failure carrying their top-level message and leave the
    world as it was (no statement, no cache invalidation, no redirect).
    Under [amount] the result lists the custom message when the number is
    [<= 0], and the default type message ["Expected number, received nan"]
    when the field is not numeric. *)
Theorem amount_not_positive_rejected env id st st' fd w :
  le (coercedAmount fd) (S754_zero false) = true
    \/ isNaN (coercedAmount fd) = true ->
  (exists fe,
     createInvoice env st fd w =
       (Return {| errors := Some fe;
                  message := Some "Missing Fields. Failed to create invoices." |},
        w)
     /\ fe !! "amount" =
          Some (if isNaN (coercedAmount fd)
                then ["Expected number, received nan"]
                else ["Please enter an amount greater than $0."]))
  /\ (exists fe,
        updateInvoice env id st' fd w =
          (Return {| errors := Some fe;
                     message := Some "Missing Fields. Failed to update invoice" |},
           w)
        /\ fe !! "amount" =
             Some (if isNaN (coercedAmount fd)
                   then ["Expected number, received nan"]
                   else ["Please enter an amount greater than $0."])).
Proof.
  intros Hn.
  set (listed := if isNaN (coercedAmount fd)
                 then ["Expected number, received nan"]
                 else ["Please enter an amount greater than $0."]).
  assert (Hm : messagesAt "amount" (validationIssues fd) = listed).
  { rewrite messagesAt_amount. subst listed. unfold coercedAmount in *.
    destruct (isNaN (Number (get fd "amount"))) eqn:Hnan; [done|].
    destruct Hn as [->|?]; [done|congruence]. }
  assert (Hlisted : listed <> [])
    by (subst listed; by destruct (isNaN (coercedAmount fd))).
  rewrite createInvoice_run, updateInvoice_run.
  destruct (validationIssues fd) as [|i error] eqn:He.
  { by rewrite <- Hm in Hlisted. }
  split; eexists; (split; [reflexivity|]);
    rewrite fieldErrors_lookup, Hm; by destruct listed.
Qed.

(** Scenario B of the specification, through the theorem. *)
Lemma amount_not_positive_rejected_witness :
  exists fe,
    createInvoice quietEnv noState (form "c1" "0" "pending") emptyWorld =
      (Return {| errors := Some fe;
                 message := Some "Missing Fields. Failed to create invoices." |},
       emptyWorld)
    /\ fe !! "amount" = Some ["Please enter an amount greater than $0."].
Proof.
  exact (proj1 (amount_not_positive_rejected quietEnv "inv-42" noState noState
                  (form "c1" "0" "pending") emptyWorld
                  (or_introl eq_refl))).
Defined.

(** C1, as stated, fails on a non-numeric amount: the result lists the
    default type message under [amount], not the custom one. *)
Lemma non_numeric_amount_message :
  isNaN (coercedAmount (form "c1" "abc" "pending")) = true
  /\ errorsOf "amount"
       (createInvoice quietEnv noState (form "c1" "abc" "pending") emptyWorld)
     = ["Expected number, received nan"]
  /\ ~ "Please enter an amount greater than $0."
       ∈ errorsOf "amount"
           (createInvoice quietEnv noState (form "c1" "abc" "pending")
              emptyWorld).
Proof.
  rewrite errorsOf_createInvoice, messagesAt_amount.
  split; [reflexivity|]. split; [reflexivity|].
  change (~ "Please enter an amount greater than $0."
            ∈ ["Expected number, received nan"]).
  rewrite list_elem_of_singleton. discriminate.
Qed.

(** *** C2: the amount handed to the database *)

Lemma statements_app t1 t2 :
  statements (t1 ++ t2) = statements t1 ++ statements t2.
Proof. apply omap_app. Qed.

Lemma createInvoice_statements env st fd w :
  accepts CreateInvoice fd = true ->
  statements (trace (createInvoice env st fd w).2) =
    statements (trace w) ++ [insertStatement env fd].
Proof.
  intros Hacc%accepts_validationIssues.
  rewrite createInvoice_run, Hacc. cbv zeta.
  destruct (sql_raises _ _ _); cbn [snd trace logged];
    by rewrite statements_app.
Qed.

Lemma updateInvoice_statements env id st fd w :
  accepts UpdateInvoice fd = true ->
  statements (trace (updateInvoice env id st fd w).2) =
    statements (trace w) ++ [updateStatement id fd].
Proof.
  rewrite UpdateInvoice_CreateInvoice.
  intros Hacc%accepts_validationIssues.
  rewrite updateInvoice_run, Hacc. cbv zeta.
  destruct (sql_raises _ _ _); cbn [snd trace logged];
    by rewrite statements_app.
Qed.

(** What the two actions compute as [amountInCents]: for every input that
    passes validation, the one statement they send binds as amount the
    binary64 product of the coerced amount and 100, as [*] computes it.
    For the inputs ["250.00"] and ["99.50"] that product is the whole
    number 25000, respectively 9950. *)
Theorem amount_persisted_is_float_product env id st st' fd w :
  accepts CreateInvoice fd = true ->
  statements (trace (createInvoice env st fd w).2) =
    statements (trace w)
      ++ [INSERT_INTO_invoices (get fd "customerId")
            (Num (mul (coercedAmount fd) (number_of_Z 100)))
            (get fd "status") (Str (isoDay (Date_now env)))]
  /\ statements (trace (updateInvoice env id st' fd w).2) =
       statements (trace w)
         ++ [UPDATE_invoices_SET (get fd "customerId")
               (Num (mul (coercedAmount fd) (number_of_Z 100)))
               (get fd "status") id]
  /\ mul (Number (Str "250.00")) (number_of_Z 100) = number_of_Z 25000
  /\ mul (Number (Str "99.50")) (number_of_Z 100) = number_of_Z 9950.
Proof.
  intros Hacc. split; [|split].
  - by apply createInvoice_statements.
  - by apply updateInvoice_statements.
  - split; reflexivity.
Qed.

(** Scenario C of the specification, through the theorem. *)
Lemma amount_persisted_is_float_product_witness :
  statements
    (trace (updateInvoice quietEnv "inv-42" noState
              (form "c2" "99.50" "paid") emptyWorld).2)
  = [UPDATE_invoices_SET (Str "c2") (Num (number_of_Z 9950)) (Str "paid")
       "inv-42"].
Proof.
  exact (proj1 (proj2 (amount_persisted_is_float_product quietEnv "inv-42"
                         noState noState (form "c2" "99.50" "paid")
                         emptyWorld eq_refl))).
Defined.

(** C2 (the code departs from the claim).  The claim asks for the whole
    number of cents [round (amount * 100)] whenever the input has at most
    two decimal places.  On the form with amount ["1.15"], which passes
    validation, [createInvoice] and [updateInvoice] bind as
    [amountInCents] the number 8092405580431359 * 2^-46, printed
    114.99999999999999: it lies strictly between 114 and 115, so it is no
    whole number of cents, and it is not the 115 the claim asks for. *)
Lemma amount_1_15_not_whole_cents :
  accepts CreateInvoice (form "c1" "1.15" "pending") = true
  /\ statements
       (trace (createInvoice quietEnv noState (form "c1" "1.15" "pending")
                 emptyWorld).2)
     = [INSERT_INTO_invoices (Str "c1")
          (Num (S754_finite false 8092405580431359 (-46)))
          (Str "pending") (Str "2026-11-03")]
  /\ statements
       (trace (updateInvoice quietEnv "inv-42" noState
                 (form "c1" "1.15" "pending") emptyWorld).2)
     = [UPDATE_invoices_SET (Str "c1")
          (Num (S754_finite false 8092405580431359 (-46)))
          (Str "pending") "inv-42"]
  /\ SFltb (number_of_Z 114) (S754_finite false 8092405580431359 (-46)) = true
  /\ SFltb (S754_finite false 8092405580431359 (-46)) (number_of_Z 115) = true
  /\ S754_finite false 8092405580431359 (-46) <> number_of_Z 115.
Proof.
  split; [reflexivity|].
  split; [by vm_compute|].
  split; [by vm_compute|].
  split; [reflexivity|]. split; [reflexivity|].
  vm_compute. discriminate.
Qed.

(** *** C3: the customer field *)

(** C3 (as amended).  Whenever the customerId field is not a string (it is
    absent from the form, so extracted as [null], or it is a file),
    [createInvoice] and [updateInvoice] reject the input at validation:
    they return their validation failure with exactly
    ["Please select a customer"] under [customerId] and leave the world as
    it was.  A customerId that is a string passes this check even when it
    is empty: the result then lists nothing under [customerId]. *)
Theorem customerId_not_a_string_rejected env id st st' fd w :
  ((forall s, get fd "customerId" <> Str s) ->
   (exists fe,
      createInvoice env st fd w =
        (Return {| errors := Some fe;
                   message := Some "Missing Fields. Failed to create invoices." |},
         w)
      /\ fe !! "customerId" = Some ["Please select a customer"])
   /\ (exists fe,
         updateInvoice env id st' fd w =
           (Return {| errors := Some fe;
                      message := Some "Missing Fields. Failed to update invoice" |},
            w)
         /\ fe !! "customerId" = Some ["Please select a customer"]))
  /\ (get fd "customerId" = Str "" ->
      errorsOf "customerId" (createInvoice env st fd w) = []
      /\ errorsOf "customerId" (updateInvoice env id st' fd w) = []).
Proof.
  split.
  - intros Hc.
    assert (Hm : messagesAt "customerId" (validationIssues fd)
                 = ["Please select a customer"]).
    { rewrite messagesAt_customerId.
      destruct (get fd "customerId") eqn:E; try done. by destruct (Hc s). }
    rewrite createInvoice_run, updateInvoice_run.
    destruct (validationIssues fd) as [|i error] eqn:He; [done|].
    split; eexists; (split; [reflexivity|]);
      by rewrite fieldErrors_lookup, Hm.
  - intros Hc.
    rewrite errorsOf_createInvoice, errorsOf_updateInvoice,
      messagesAt_customerId, Hc.
    done.
Qed.

Lemma customerId_not_a_string_rejected_witness :
  (exists fe,
     createInvoice quietEnv noState
       [("amount", entry_string "10"); ("status", entry_string "paid")]
       emptyWorld =
       (Return {| errors := Some fe;
                  message := Some "Missing Fields. Failed to create invoices." |},
        emptyWorld)
     /\ fe !! "customerId" = Some ["Please select a customer"])
  /\ errorsOf "customerId"
       (createInvoice quietEnv noState (form "" "10" "paid") emptyWorld) = [].
Proof.
  split.
  - refine (proj1 (proj1 (customerId_not_a_string_rejected quietEnv "inv-42"
                            noState noState
                            [("amount", entry_string "10");
                             ("status", entry_string "paid")] emptyWorld) _)).
    intros s. discriminate.
  - exact (proj1 (proj2 (customerId_not_a_string_rejected quietEnv "inv-42"
                           noState noState (form "" "10" "paid") emptyWorld)
                    eq_refl)).
Defined.

(** C3, as stated, fails: a form whose customerId is the empty string and
    whose other fields are valid is accepted, and the insertion is sent with
    the empty customer reference. *)
Lemma empty_customerId_accepted :
  get (form "" "10" "paid") "customerId" = Str ""
  /\ createInvoice quietEnv noState (form "" "10" "paid") emptyWorld =
       (Throw (NEXT_REDIRECT "/dashboard/invoices"),
        mkWorld
          [mkInvoice "inv-new" (Str "") (Num (number_of_Z 1000)) (Str "paid")
             (Str "2026-11-03")]
          [ev_sql (INSERT_INTO_invoices (Str "") (Num (number_of_Z 1000))
                     (Str "paid") (Str "2026-11-03"));
           ev_revalidatePath "/dashboard/invoices";
           ev_redirect "/dashboard/invoices"]).
Proof. split; [reflexivity|]. by vm_compute. Qed.

(** *** C4: the date of a new invoice *)

(** The calendar date computed for a day number is a date of the
    proleptic Gregorian calendar that lies that many days after
    1970-01-01. *)
Lemma civil_from_days_inverse n :
  let '(y, m, d) := civil_from_days n in
  1 <= m <= 12 /\ 1 <= d <= 31 /\ days_from_civil y m d = n.
Proof.
  unfold civil_from_days, days_from_civil. cbv zeta.
  repeat match goal with
         | |- context [if ?b then _ else _] => destruct b eqn:?
         end;
    rewrite ?Z.ltb_lt, ?Z.ltb_ge, ?Z.leb_le, ?Z.leb_gt in *;
    Z.div_mod_to_equations; lia.
Qed.

(** The action reads the form only through the three fields it extracts. *)
Lemma createInvoice_same_fields env st fd fd' w :
  get fd' "customerId" = get fd "customerId" ->
  get fd' "amount" = get fd "amount" ->
  get fd' "status" = get fd "status" ->
  createInvoice env st fd' w = createInvoice env st fd w.
Proof.
  intros Hc Ha Hs. unfold createInvoice, rawFields. by rewrite Hc, Ha, Hs.
Qed.

(** C4 (as amended).  For every input that [createInvoice] accepts, the
    one statement it sends is the insertion whose date is the UTC calendar
    day of the clock reading at the call, in the form [YYYY-MM-DD],
    whatever the time zone of the host.  The date does not depend on the
    form: any form with the same customerId, amount and status fields,
    such as the same form with [date] and [id] entries put in front, makes
    [createInvoice] behave in the same way.  The day written is a date of
    the Gregorian calendar that lies as many whole days after 1970-01-01
    as the clock reading, and it is the system day of a host on UTC. *)
Theorem creation_date_is_current_day env st fd w :
  accepts CreateInvoice fd = true ->
  statements (trace (createInvoice env st fd w).2) =
    statements (trace w)
      ++ [INSERT_INTO_invoices (get fd "customerId") (amountInCents fd)
            (get fd "status") (Str (isoDay (Date_now env)))]
  /\ (forall fd',
        get fd' "customerId" = get fd "customerId" ->
        get fd' "amount" = get fd "amount" ->
        get fd' "status" = get fd "status" ->
        createInvoice env st fd' w = createInvoice env st fd w)
  /\ (forall d i,
        createInvoice env st (("date", d) :: ("id", i) :: fd) w =
          createInvoice env st fd w)
  /\ (exists y m d,
        isoDay (Date_now env) =
          string_of_list_ascii
            (isoYear y ++ ["-"%char] ++ pad 2 m ++ ["-"%char] ++ pad 2 d)
        /\ 1 <= m <= 12 /\ 1 <= d <= 31
        /\ days_from_civil y m d = Date_now env / msPerDay)
  /\ isoDay (Date_now env) = systemDay 0 (Date_now env).
Proof.
  intros Hacc. split; [|split; [|split; [|split]]].
  - by apply createInvoice_statements.
  - intros fd'. apply createInvoice_same_fields.
  - intros d i. by apply createInvoice_same_fields.
  - pose proof (civil_from_days_inverse (Date_now env / msPerDay)) as Hcal.
    unfold isoDay, isoDate.
    destruct (civil_from_days (Date_now env / msPerDay)) as [[y m] d].
    exists y, m, d. by destruct Hcal as (? & ? & ?).
  - unfold systemDay. by rewrite Z.mul_0_l, Z.sub_0_r.
Qed.

(** Scenario A of the specification with a date and an id smuggled into the
    form: the row is dated by the clock. *)
Lemma creation_date_is_current_day_witness :
  statements
    (trace (createInvoice quietEnv noState
              (("date", entry_string "1999-12-31")
               :: ("id", entry_string "inv-1")
               :: form "c1" "250.00" "pending") emptyWorld).2)
  = [INSERT_INTO_invoices (Str "c1") (Num (number_of_Z 25000))
       (Str "pending") (Str "2026-11-03")].
Proof.
  pose proof (creation_date_is_current_day quietEnv noState
                (form "c1" "250.00" "pending") emptyWorld eq_refl)
    as (Hsent & _ & Hextra & _).
  rewrite Hextra. exact Hsent.
Defined.

(** C4, as stated, fails on a host that is not on UTC.  At the clock
    reading 2026-11-03T00:00:00.123Z a host in New York (offset 300
    minutes) is still on 2 November, its system day, while the insertion
    [createInvoice] sends for an accepted form is dated 3 November. *)
Lemma creation_date_is_not_the_local_day :
  accepts CreateInvoice (form "c1" "250.00" "pending") = true
  /\ toISOString (Date_now quietEnv) = "2026-11-03T00:00:00.123Z"
  /\ systemDay 300 (Date_now quietEnv) = "2026-11-02"
  /\ statements
       (trace (createInvoice quietEnv noState (form "c1" "250.00" "pending")
                 emptyWorld).2)
     = [INSERT_INTO_invoices (Str "c1") (Num (number_of_Z 25000))
          (Str "pending") (Str "2026-11-03")]
  /\ Str "2026-11-03" <> Str (systemDay 300 (Date_now quietEnv)).
Proof.
  split; [reflexivity|]. split; [by vm_compute|]. split; [by vm_compute|].
  split; [by vm_compute|]. vm_compute. discriminate.
Qed.

(** *** C5: what an update leaves alone *)




(** *** C6: a statement that raises *)

(** C6.  For an accepted input whose statement the database refuses,
    [createInvoice] returns a result holding nothing but the message
    ["Database Error: Failed to create invoice"], and [updateInvoice] one
    holding nothing but ["Database Error: Failed to update database"].  In
    both cases the only event added to the trace is the statement itself
    (no cache invalidation, no redirect) and the table is as it was. *)
Theorem persistence_failure_message env id st st' fd w :
  accepts CreateInvoice fd = true ->
  (forall e,
     sql_raises env (invoices w) (insertStatement env fd) = Some e ->
     createInvoice env st fd w =
       (Return {| errors := None;
                  message := Some "Database Error: Failed to create invoice" |},
        mkWorld (invoices w) (trace w ++ [ev_sql (insertStatement env fd)])))
  /\ (forall e,
        sql_raises env (invoices w) (updateStatement id fd) = Some e ->
        updateInvoice env id st' fd w =
          (Return {| errors := None;
                     message := Some "Database Error: Failed to update database" |},
           mkWorld (invoices w) (trace w ++ [ev_sql (updateStatement id fd)]))).
Proof.
  intros Hacc%accepts_validationIssues.
  rewrite createInvoice_run, updateInvoice_run, Hacc. cbv zeta.
  split; intros e He; by rewrite He.
Qed.

Lemma persistence_failure_message_witness :
  createInvoice brokenDbEnv noState (form "c1" "250.00" "pending") emptyWorld =
    (Return {| errors := None;
               message := Some "Database Error: Failed to create invoice" |},
     mkWorld []
       [ev_sql (INSERT_INTO_invoices (Str "c1") (Num (number_of_Z 25000))
                  (Str "pending") (Str "2026-11-03"))])
  /\ updateInvoice brokenDbEnv "inv-42" noState (form "c1" "250.00" "pending")
       emptyWorld =
       (Return {| errors := None;
                  message := Some "Database Error: Failed to update database" |},
        mkWorld []
          [ev_sql (UPDATE_invoices_SET (Str "c1") (Num (number_of_Z 25000))
                     (Str "pending") "inv-42")]).
Proof.
  destruct (persistence_failure_message brokenDbEnv "inv-42" noState noState
              (form "c1" "250.00" "pending") emptyWorld eq_refl)
    as [Hcreate Hupdate].
  split.
  - exact (Hcreate (Error "connection refused") eq_refl).
  - exact (Hupdate (Error "connection refused") eq_refl).
Defined.

(** *** C7: deletion *)

(** C7.  For every id, [deleteInvoice] sends exactly one statement, the
    deletion of the rows whose identifier is [id].  If the statement raises,
    the error leaves [deleteInvoice] as it is and nothing follows the
    statement in the trace; if it does not, the rows with that identifier
    are gone and the invalidation of ["/dashboard/invoices"] follows the
    statement.  So the invalidation is in the added events exactly when the
    statement did not raise, and never before it. *)
Theorem deleteInvoice_one_statement_no_recovery env id w :
  statements (trace (deleteInvoice env id w).2) =
    statements (trace w) ++ [DELETE_FROM_invoices id]
  /\ (forall e,
        sql_raises env (invoices w) (DELETE_FROM_invoices id) = Some e ->
        deleteInvoice env id w =
          (Throw e,
           mkWorld (invoices w) (trace w ++ [ev_sql (DELETE_FROM_invoices id)])))
  /\ (sql_raises env (invoices w) (DELETE_FROM_invoices id) = None ->
      deleteInvoice env id w =
        (Return tt,
         mkWorld (filter (fun r => inv_id r <> id) (invoices w))
           (trace w ++ [ev_sql (DELETE_FROM_invoices id);
                        ev_revalidatePath "/dashboard/invoices"])))
  /\ (ev_revalidatePath "/dashboard/invoices"
        ∈ drop (length (trace w)) (trace (deleteInvoice env id w).2)
      <-> sql_raises env (invoices w) (DELETE_FROM_invoices id) = None).
Proof.
  unfold deleteInvoice, bind, sql, revalidatePath, log, bind. cbn.
  destruct (sql_raises env (invoices w) (DELETE_FROM_invoices id)) as [e|];
    cbn; rewrite ?statements_app, <- ?app_assoc, ?drop_app_length; cbn.
  - repeat split; try done.
    + by intros e' [= ->].
    + intros H. apply list_elem_of_singleton in H. discriminate.
  - repeat split; try done.
    intros _. apply list_elem_of_further, list_elem_of_here.
Qed.

Lemma deleteInvoice_one_statement_no_recovery_witness :
  deleteInvoice brokenDbEnv "inv-99" emptyWorld =
    (Throw (Error "connection refused"),
     mkWorld [] [ev_sql (DELETE_FROM_invoices "inv-99")])
  /\ deleteInvoice quietEnv "inv-99" emptyWorld =
       (Return tt,
        mkWorld []
          [ev_sql (DELETE_FROM_invoices "inv-99");
           ev_revalidatePath "/dashboard/invoices"]).
Proof.
  split.
  - exact (proj1 (proj2 (deleteInvoice_one_statement_no_recovery brokenDbEnv
                           "inv-99" emptyWorld))
             (Error "connection refused") eq_refl).
  - exact (proj1 (proj2 (proj2 (deleteInvoice_one_statement_no_recovery
                                  quietEnv "inv-99" emptyWorld)))
             eq_refl).
Defined.

(** *** C8: authentication *)

(** C8.  [authenticate] calls the provider once with the strategy
    ["credentials"] and the form.  It returns ["Invalid credentials."] when
    the provider raises an authentication error of type
    ["CredentialsSignin"], ["Something went wrong."] when it raises an
    authentication error of any other type, raises again whatever else the
    provider raised, and returns no value when the provider returns. *)
Theorem authenticate_outcomes env prev fd w :
  (authenticate env prev fd w).2
    = mkWorld (invoices w) (trace w ++ [ev_signIn "credentials" fd])
  /\ (signIn_raises env "credentials" fd = Some (AuthError "CredentialsSignin") ->
      (authenticate env prev fd w).1 = Return (Some "Invalid credentials."))
  /\ (forall type,
        signIn_raises env "credentials" fd = Some (AuthError type) ->
        type <> "CredentialsSignin" ->
        (authenticate env prev fd w).1 = Return (Some "Something went wrong."))
  /\ (forall e,
        signIn_raises env "credentials" fd = Some e ->
        (forall type, e <> AuthError type) ->
        (authenticate env prev fd w).1 = Throw e)
  /\ (signIn_raises env "credentials" fd = None ->
      (authenticate env prev fd w).1 = Return None).
Proof.
  unfold authenticate, try_catch, bind, signIn, bind, log, throw, ret. cbn.
  destruct (signIn_raises env "credentials" fd) as [e|] eqn:He; cbn.
  - destruct e as [type| |]; cbn.
    + destruct (String.eqb_spec type "CredentialsSignin") as [->|Hne]; cbn.
      * repeat split; try done.
        -- by intros type [= <-] Hne.
        -- intros e [= <-] Hno. by destruct (Hno "CredentialsSignin").
      * repeat split; try done.
        -- by intros [= ->].
        -- intros e [= <-] Hno. by destruct (Hno type).
    + repeat split; try done. by intros e [= <-] _.
    + repeat split; try done. by intros e [= <-] _.
  - repeat split; done.
Qed.

(** Scenario D of the specification and the three other outcomes. *)
Lemma authenticate_outcomes_witness :
  (authenticate pickyAuthEnv None [("password", entry_string "wrong")]
     emptyWorld).1 = Return (Some "Invalid credentials.")
  /\ (authenticate pickyAuthEnv None [("email", entry_string "a@b.c")]
        emptyWorld).1 = Return (Some "Something went wrong.")
  /\ (authenticate pickyAuthEnv None [("x", entry_string "y")]
        emptyWorld).1 = Throw (Error "fetch failed")
  /\ (authenticate pickyAuthEnv None [] emptyWorld).1 = Return None.
Proof.
  split; [|split; [|split]].
  - exact (proj1 (proj2 (authenticate_outcomes pickyAuthEnv None
                           [("password", entry_string "wrong")] emptyWorld))
             eq_refl).
  - refine (proj1 (proj2 (proj2 (authenticate_outcomes pickyAuthEnv None
                                   [("email", entry_string "a@b.c")]
                                   emptyWorld)))
              "CallbackRouteError" eq_refl _).
    discriminate.
  - refine (proj1 (proj2 (proj2 (proj2 (authenticate_outcomes pickyAuthEnv None
                                          [("x", entry_string "y")]
                                          emptyWorld))))
              (Error "fetch failed") eq_refl _).
    intros type. discriminate.
  - exact (proj2 (proj2 (proj2 (proj2 (authenticate_outcomes pickyAuthEnv None
                                         [] emptyWorld))))
             eq_refl).
Defined.

(** *** C9: one schema for both writing actions *)

(** C9.  [CreateInvoice] and [UpdateInvoice] are the same schema, namely
    [FormSchema] without [id] and [date].  So for every form the two
    actions take the same decision: either both return per-field errors,
    and then the same ones, or neither does; they do exactly when the
    schema does not accept the form.  On rejection the two results differ
    in their top-level messages only. *)
Theorem create_update_same_validation env env' id st st' fd w w' :
  CreateInvoice = UpdateInvoice
  /\ CreateInvoice = omit ["id"; "date"] FormSchema
  /\ safeParse CreateInvoice (rawFields fd) = safeParse UpdateInvoice (rawFields fd)
  /\ returnedErrors (createInvoice env st fd w)
     = returnedErrors (updateInvoice env' id st' fd w')
  /\ (accepts CreateInvoice fd = false <->
      is_Some (returnedErrors (createInvoice env st fd w)))
  /\ (accepts CreateInvoice fd = false ->
      exists fe,
        (createInvoice env st fd w).1 =
          Return {| errors := Some fe;
                    message := Some "Missing Fields. Failed to create invoices." |}
        /\ (updateInvoice env' id st' fd w').1 =
             Return {| errors := Some fe;
                       message := Some "Missing Fields. Failed to update invoice" |}).
Proof.
  split; [reflexivity|]. split; [reflexivity|]. split; [reflexivity|].
  assert (Hacc : accepts CreateInvoice fd = false <-> validationIssues fd <> []).
  { unfold accepts. rewrite safeParse_rawFields.
    by destruct (validationIssues fd). }
  rewrite Hacc, createInvoice_run, updateInvoice_run. unfold returnedErrors.
  destruct (validationIssues fd) as [|i error]; cbv zeta.
  - destruct (sql_raises env _ _), (sql_raises env' _ _); cbn;
      (split; [done|]); (split; [|done]);
      split; try done; by intros [].
  - cbn. split; [done|]. split; [done|]. intros _. by eexists.
Qed.

Lemma create_update_same_validation_witness :
  exists fe,
    (createInvoice quietEnv noState (form "c1" "0" "pending") emptyWorld).1 =
      Return {| errors := Some fe;
                message := Some "Missing Fields. Failed to create invoices." |}
    /\ (updateInvoice brokenDbEnv "inv-42" noState (form "c1" "0" "pending")
          twoInvoices).1 =
         Return {| errors := Some fe;
                   message := Some "Missing Fields. Failed to update invoice" |}.
Proof.
  exact (proj2 (proj2 (proj2 (proj2 (proj2
           (create_update_same_validation quietEnv brokenDbEnv "inv-42"
              noState noState (form "c1" "0" "pending") emptyWorld
              twoInvoices)))))
           eq_refl).
Defined.

(** *** C10: where the two custom messages come from *)

(** [formData.get] yields [null] exactly for a name no entry has. *)
Lemma get_null_iff fd k : get fd k = null <-> k ∉ fd.*1.
Proof.
  induction fd as [|[k' v] fd IH]; cbn.
  - split; [intros _; apply not_elem_of_nil | done].
  - rewrite not_elem_of_cons.
    destruct (String.eqb_spec k' k) as [->|Hne].
    + split; [by destruct v | by intros [[] _]].
    + rewrite IH. split; [by intros ?; split; [congruence|] | by intros [_ ?]].
Qed.

(** C10 (as amended).  The messages ["Please select a customer"] and
    ["Please select an invoice status"] are configured as invalid-type
    errors only.  [createInvoice] and [updateInvoice] list them exactly
    when the value extracted for the field is not a string: the field is
    absent from the form (extracted as [null]) or it is a file.  A
    customerId that is any string, the empty one included, has nothing
    listed under [customerId]; a status that is a string other than
    ["paid"] and ["pending"] is rejected with the default invalid-enum
    message and not with the custom one. *)
Theorem custom_messages_are_type_errors env id st st' fd w :
  FormSchema.*2 !! 1%nat = Some (ZodString (Some "Please select a customer"))
  /\ FormSchema.*2 !! 3%nat =
       Some (ZodEnum ["paid"; "pending"] (Some "Please select an invoice status"))
  /\ ("Please select a customer" ∈ errorsOf "customerId" (createInvoice env st fd w)
      <-> forall s, get fd "customerId" <> Str s)
  /\ ("Please select an invoice status" ∈ errorsOf "status" (createInvoice env st fd w)
      <-> forall s, get fd "status" <> Str s)
  /\ errorsOf "customerId" (updateInvoice env id st' fd w)
     = errorsOf "customerId" (createInvoice env st fd w)
  /\ errorsOf "status" (updateInvoice env id st' fd w)
     = errorsOf "status" (createInvoice env st fd w)
  /\ (forall k, (forall s, get fd k <> Str s)
                <-> k ∉ fd.*1 \/ exists f, get fd k = File f)
  /\ (forall s, get fd "customerId" = Str s ->
                errorsOf "customerId" (createInvoice env st fd w) = [])
  /\ (forall s, get fd "status" = Str s -> s <> "paid" -> s <> "pending" ->
                errorsOf "status" (createInvoice env st fd w) =
                  ["Invalid enum value. Expected 'paid' | 'pending', received '"
                     +:+ s +:+ "'"]).
Proof.
  split; [reflexivity|]. split; [reflexivity|].
  rewrite !errorsOf_createInvoice, !errorsOf_updateInvoice,
    messagesAt_customerId, messagesAt_status.
  split; [|split; [|split; [done|split; [done|split; [|split]]]]].
  - destruct (get fd "customerId") eqn:E;
      rewrite ?list_elem_of_singleton; try (split; [intros _ s'|]; done).
    split; [by intros ?%not_elem_of_nil | by intros H; destruct (H s)].
  - destruct (get fd "status") as [| |s| |] eqn:E;
      rewrite ?list_elem_of_singleton; try (split; [intros _ s'|]; done).
    case_decide as Hin.
    + split; [by intros ?%not_elem_of_nil | by intros Hs; destruct (Hs s)].
    + rewrite list_elem_of_singleton. cbn.
      split; [discriminate | by intros Hs; destruct (Hs s)].
  - intros k. rewrite <- get_null_iff.
    destruct (get_cases fd k) as [H|[[s H]|[f H]]]; rewrite H.
    + split; [by left | done].
    + split; [by intros H'; destruct (H' s) | by intros [|[? ?]]].
    + split; [right; by eexists | done].
  - by intros s ->.
  - intros s -> Hpaid Hpending. case_decide as Hin; [|done].
    rewrite !elem_of_cons in Hin.
    by destruct Hin as [?|[?|?%not_elem_of_nil]].
Qed.

Lemma custom_messages_are_type_errors_witness :
  errorsOf "customerId"
    (createInvoice quietEnv noState (form "" "10" "paid") emptyWorld) = []
  /\ errorsOf "status"
       (createInvoice quietEnv noState (form "c1" "10" "overdue") emptyWorld)
     = ["Invalid enum value. Expected 'paid' | 'pending', received 'overdue'"].
Proof.
  split.
  - exact (proj1 (proj2 (proj2 (proj2 (proj2 (proj2 (proj2 (proj2
             (custom_messages_are_type_errors quietEnv "inv-42" noState
                noState (form "" "10" "paid") emptyWorld))))))))
             "" eq_refl).
  - refine (proj2 (proj2 (proj2 (proj2 (proj2 (proj2 (proj2 (proj2
              (custom_messages_are_type_errors quietEnv "inv-42" noState
                 noState (form "c1" "10" "overdue") emptyWorld))))))))
              "overdue" eq_refl _ _); discriminate.
Defined.

(** C10, as stated, fails on a customerId that is present but is a file:
    the custom message is listed although the field is not absent. *)
Lemma file_customerId_custom_message :
  get [("customerId", entry_file "logo.png"); ("amount", entry_string "10");
       ("status", entry_string "paid")] "customerId" = File "logo.png"
  /\ get [("customerId", entry_file "logo.png"); ("amount", entry_string "10");
          ("status", entry_string "paid")] "customerId" <> null
  /\ errorsOf "customerId"
       (createInvoice quietEnv noState
          [("customerId", entry_file "logo.png"); ("amount", entry_string "10");
           ("status", entry_string "paid")] emptyWorld)
     = ["Please select a customer"].
Proof.
  split; [reflexivity|]. split; [discriminate|].
  by rewrite errorsOf_createInvoice, messagesAt_customerId.
Qed.

(* ===================================================================== *)
(** ** Further properties of the actions *)
(* ===================================================================== *)

(** *** Which forms are accepted *)

Lemma validationIssues_nil_fields fd :
  validationIssues fd = [] <->
    customerIdInvalid fd = false /\ amountInvalid fd = false
    /\ statusInvalid fd = false.
Proof.
  rewrite validationIssues_nil, messagesAt_customerId, messagesAt_amount,
    messagesAt_status.
  unfold customerIdInvalid, amountInvalid, statusInvalid, coercedAmount.
  destruct (get fd "customerId") as [| |c|c|c];
    destruct (isNaN (Number (get fd "amount")));
    destruct (le (Number (get fd "amount")) (S754_zero false));
    destruct (get fd "status") as [| |s| |]; cbn;
    try (destruct (decide (s ∈ ["paid"; "pending"]));
         [rewrite bool_decide_eq_true_2 by done
         |rewrite bool_decide_eq_false_2 by done]; cbn);
    split; intros (? & ? & ?); repeat split; congruence.
Qed.

(** X1.  The schema shared by [createInvoice] and [updateInvoice] accepts a
    form exactly when its customerId is a string, its amount coerces to a
    number that is neither [NaN] nor [<= 0], and its status is the string
    ["paid"] or the string ["pending"]. *)
Theorem accepted_forms fd :
  (accepts CreateInvoice fd = true <->
     (exists c, get fd "customerId" = Str c)
     /\ isNaN (coercedAmount fd) = false
     /\ le (coercedAmount fd) (S754_zero false) = false
     /\ (get fd "status" = Str "paid" \/ get fd "status" = Str "pending"))
  /\ accepts UpdateInvoice fd = accepts CreateInvoice fd.
Proof.
  split; [|reflexivity].
  rewrite accepts_validationIssues, validationIssues_nil_fields.
  unfold customerIdInvalid, amountInvalid, statusInvalid.
  rewrite orb_false_iff.
  split.
  - intros (Hc & [Hn Hl] & Hs). repeat split; try done.
    + destruct (get fd "customerId"); try done. by eexists.
    + destruct (get fd "status") as [| |s| |]; try done.
      apply negb_false_iff, bool_decide_eq_true in Hs.
      rewrite !elem_of_cons in Hs.
      destruct Hs as [->|[->|?%not_elem_of_nil]]; [by left|by right|done].
  - intros ([c ->] & Hn & Hl & Hs). repeat split; try done.
    by destruct Hs as [->| ->].
Qed.

(** *** The path of a successful write *)

(** X2.  When [createInvoice] accepts the form and the insertion does not
    raise, the table gains exactly one row, at its end, holding the
    identifier the storage assigns, the submitted customer and status, the
    amount times 100 and the day of the clock; the events are, in this
    order, the statement, the invalidation of ["/dashboard/invoices"] and
    the redirect to it; and the call does not return: it ends with the
    redirect signal. *)
Theorem createInvoice_success env st fd w :
  accepts CreateInvoice fd = true ->
  sql_raises env (invoices w) (insertStatement env fd) = None ->
  createInvoice env st fd w =
    (Throw (NEXT_REDIRECT "/dashboard/invoices"),
     mkWorld (invoices w ++ [insertedRow env (invoices w) fd])
       (trace w ++ [ev_sql (insertStatement env fd);
                    ev_revalidatePath "/dashboard/invoices";
                    ev_redirect "/dashboard/invoices"])).
Proof.
  intros Hacc%accepts_validationIssues Hsql.
  rewrite createInvoice_run, Hacc. cbv zeta. by rewrite Hsql.
Qed.

Lemma createInvoice_success_witness :
  createInvoice quietEnv noState (form "c7" "12.5" "paid") twoInvoices =
    (Throw (NEXT_REDIRECT "/dashboard/invoices"),
     mkWorld
       (invoices twoInvoices
          ++ [mkInvoice "inv-new" (Str "c7") (Num (number_of_Z 1250))
                (Str "paid") (Str "2026-11-03")])
       [ev_sql (INSERT_INTO_invoices (Str "c7") (Num (number_of_Z 1250))
                  (Str "paid") (Str "2026-11-03"));
        ev_revalidatePath "/dashboard/invoices";
        ev_redirect "/dashboard/invoices"]).
Proof.
  exact (createInvoice_success quietEnv noState (form "c7" "12.5" "paid")
           twoInvoices eq_refl eq_refl).
Defined.

(** X3.  When [updateInvoice] accepts the form and the update does not
    raise, every row whose identifier is [id] gets the submitted customer
    and status and the amount times 100, the other rows stay, and the
    events are the statement, the invalidation and the redirect, in this
    order; the call ends with the redirect signal. *)
Theorem updateInvoice_success env id st fd w :
  accepts UpdateInvoice fd = true ->
  sql_raises env (invoices w) (updateStatement id fd) = None ->
  updateInvoice env id st fd w =
    (Throw (NEXT_REDIRECT "/dashboard/invoices"),
     mkWorld
       (map (fun r => if String.eqb (inv_id r) id
                      then mkInvoice (inv_id r) (get fd "customerId")
                             (amountInCents fd) (get fd "status") (inv_date r)
                      else r) (invoices w))
       (trace w ++ [ev_sql (updateStatement id fd);
                    ev_revalidatePath "/dashboard/invoices";
                    ev_redirect "/dashboard/invoices"])).
Proof.
  rewrite UpdateInvoice_CreateInvoice.
  intros Hacc%accepts_validationIssues Hsql.
  rewrite updateInvoice_run, Hacc. cbv zeta. by rewrite Hsql.
Qed.

Lemma updateInvoice_success_witness :
  updateInvoice quietEnv "inv-43" noState (form "c9" "7" "pending")
    twoInvoices =
    (Throw (NEXT_REDIRECT "/dashboard/invoices"),
     mkWorld
       [ mkInvoice "inv-42" (Str "c1") (Num (number_of_Z 1000))
           (Str "pending") (Str "2026-01-15");
         mkInvoice "inv-43" (Str "c9") (Num (number_of_Z 700))
           (Str "pending") (Str "2026-02-01") ]
       [ev_sql (UPDATE_invoices_SET (Str "c9") (Num (number_of_Z 700))
                  (Str "pending") "inv-43");
        ev_revalidatePath "/dashboard/invoices";
        ev_redirect "/dashboard/invoices"]).
Proof.
  exact (updateInvoice_success quietEnv "inv-43" noState
           (form "c9" "7" "pending") twoInvoices eq_refl eq_refl).
Defined.

(** *** What the writing actions never do *)

(** X4.  The only thing [createInvoice] and [updateInvoice] ever raise is
    the redirect to ["/dashboard/invoices"], and they raise it only after
    an accepted form and a statement that did not raise: whatever the
    database raises is caught and never reaches the caller. *)
Theorem writes_raise_only_the_redirect env id st fd w e :
  ((createInvoice env st fd w).1 = Throw e ->
   e = NEXT_REDIRECT "/dashboard/invoices"
   /\ accepts CreateInvoice fd = true
   /\ sql_raises env (invoices w) (insertStatement env fd) = None)
  /\ ((updateInvoice env id st fd w).1 = Throw e ->
      e = NEXT_REDIRECT "/dashboard/invoices"
      /\ accepts UpdateInvoice fd = true
      /\ sql_raises env (invoices w) (updateStatement id fd) = None).
Proof.
  rewrite UpdateInvoice_CreateInvoice, accepts_validationIssues,
    createInvoice_run, updateInvoice_run.
  destruct (validationIssues fd) as [|i error]; cbv zeta.
  - split.
    + destruct (sql_raises env (invoices w) (insertStatement env fd));
        cbn; [done|]. by intros [= <-].
    + destruct (sql_raises env (invoices w) (updateStatement id fd));
        cbn; [done|]. by intros [= <-].
  - by split.
Qed.

Lemma writes_raise_only_the_redirect_witness :
  accepts CreateInvoice (form "c7" "12.5" "paid") = true
  /\ sql_raises quietEnv (invoices twoInvoices)
       (insertStatement quietEnv (form "c7" "12.5" "paid")) = None.
Proof.
  exact (proj2 (proj1 (writes_raise_only_the_redirect quietEnv "inv-42"
                         noState (form "c7" "12.5" "paid") twoInvoices
                         (NEXT_REDIRECT "/dashboard/invoices"))
                  eq_refl)).
Defined.

(** The events a writing action adds are none, the statement alone, or the
    statement, the invalidation and the redirect. *)
Lemma added_app {A} w (c : Completion A) table es :
  added w (c, mkWorld table (trace w ++ es)) = es.
Proof. unfold added. cbn. by rewrite drop_app_length. Qed.

Lemma added_same {A} w (c : Completion A) : added w (c, w) = [].
Proof. unfold added. cbn. by rewrite drop_all. Qed.

(** X5.  [createInvoice] and [updateInvoice] invalidate the cached listing
    exactly when the form was accepted and the statement did not raise;
    the events they add are then the statement, the invalidation and the
    redirect, so the invalidation never comes before the statement.  In
    every other case they add either nothing (rejected form) or the
    statement alone (statement raised). *)
Theorem invalidation_only_after_successful_write env id st fd w :
  (ev_revalidatePath "/dashboard/invoices" ∈ added w (createInvoice env st fd w)
   <-> accepts CreateInvoice fd = true
       /\ sql_raises env (invoices w) (insertStatement env fd) = None)
  /\ (ev_revalidatePath "/dashboard/invoices"
        ∈ added w (updateInvoice env id st fd w)
      <-> accepts UpdateInvoice fd = true
          /\ sql_raises env (invoices w) (updateStatement id fd) = None)
  /\ (added w (createInvoice env st fd w) = []
      \/ added w (createInvoice env st fd w) = [ev_sql (insertStatement env fd)]
      \/ added w (createInvoice env st fd w) =
           [ev_sql (insertStatement env fd);
            ev_revalidatePath "/dashboard/invoices";
            ev_redirect "/dashboard/invoices"])
  /\ (added w (updateInvoice env id st fd w) = []
      \/ added w (updateInvoice env id st fd w) = [ev_sql (updateStatement id fd)]
      \/ added w (updateInvoice env id st fd w) =
           [ev_sql (updateStatement id fd);
            ev_revalidatePath "/dashboard/invoices";
            ev_redirect "/dashboard/invoices"]).
Proof.
  rewrite UpdateInvoice_CreateInvoice, accepts_validationIssues,
    createInvoice_run, updateInvoice_run.
  destruct (validationIssues fd) as [|i error]; cbv zeta.
  - destruct (sql_raises env (invoices w) (insertStatement env fd)) eqn:Hc;
      destruct (sql_raises env (invoices w) (updateStatement id fd)) eqn:Hu;
      unfold logged; rewrite !added_app;
      (split; [|split; [|split]]); try (by right; left); try (by right; right);
      rewrite ?list_elem_of_singleton, ?elem_of_cons;
      (split; [intros H|intros [_ H]]); try done;
      try (by destruct H as [|[|[|?%not_elem_of_nil]]]);
      by right; left.
  - rewrite !added_same.
    (split; [|split; [|split]]); try (by left);
      (split; [by intros ?%not_elem_of_nil | by intros [? _]]).
Qed.

(** *** What a rejected form is told *)

Lemma messagesAt_other k fd :
  k <> "customerId" -> k <> "amount" -> k <> "status" ->
  messagesAt k (validationIssues fd) = [].
Proof.
  intros Hc Ha Hs. unfold validationIssues.
  rewrite parse_customerId, parse_amount, parse_status. cbv zeta.
  field_cases fd; cbn; repeat case_decide; congruence.
Qed.

(** X6.  A rejected form is told about all its invalid fields at once:
    [createInvoice] and [updateInvoice] return the same per-field errors,
    which have an entry for customerId, amount and status exactly when
    that field is invalid, no entry under any other name, and exactly one
    message in each entry. *)
Theorem every_invalid_field_reported env id st fd w :
  accepts CreateInvoice fd = false ->
  exists fe,
    createInvoice env st fd w =
      (Return {| errors := Some fe;
                 message := Some "Missing Fields. Failed to create invoices." |},
       w)
    /\ updateInvoice env id st fd w =
         (Return {| errors := Some fe;
                    message := Some "Missing Fields. Failed to update invoice" |},
          w)
    /\ (is_Some (fe !! "customerId") <-> customerIdInvalid fd = true)
    /\ (is_Some (fe !! "amount") <-> amountInvalid fd = true)
    /\ (is_Some (fe !! "status") <-> statusInvalid fd = true)
    /\ (forall k ms,
          fe !! k = Some ms ->
          (k = "customerId" \/ k = "amount" \/ k = "status")
          /\ length ms = 1%nat).
Proof.
  intros Hacc.
  assert (Hne : validationIssues fd <> []).
  { intros Hnil%accepts_validationIssues. congruence. }
  rewrite createInvoice_run, updateInvoice_run.
  destruct (validationIssues fd) as [|i error] eqn:He; [done|].
  eexists. split; [reflexivity|]. split; [reflexivity|].
  rewrite <- He. clear Hne He Hacc i error.
  split; [|split; [|split]].
  - rewrite fieldErrors_lookup, messagesAt_customerId.
    unfold customerIdInvalid.
    destruct (get fd "customerId"); cbn; split;
      first [done | by intros [? ?] | by eexists].
  - rewrite fieldErrors_lookup, messagesAt_amount.
    unfold amountInvalid, coercedAmount.
    destruct (isNaN (Number (get fd "amount"))),
        (le (Number (get fd "amount")) (S754_zero false)); cbn; split;
      first [done | by intros [? ?] | by eexists].
  - rewrite fieldErrors_lookup, messagesAt_status.
    unfold statusInvalid.
    destruct (get fd "status") as [| |s| |]; cbn;
      try (split; first [done | by eexists]).
    destruct (decide (s ∈ ["paid"; "pending"]));
      [rewrite bool_decide_eq_true_2 by done
      |rewrite bool_decide_eq_false_2 by done]; cbn; split;
      first [done | by intros [? ?] | by eexists].
  - intros k ms. rewrite fieldErrors_lookup.
    destruct (decide (k = "customerId")) as [->|Hc].
    { rewrite messagesAt_customerId.
      destruct (get fd "customerId"); intros [= <-]; by split; [left|]. }
    destruct (decide (k = "amount")) as [->|Ha].
    { rewrite messagesAt_amount.
      destruct (isNaN (Number (get fd "amount"))),
        (le (Number (get fd "amount")) (S754_zero false)); intros [= <-]; by split; [right; left|]. }
    destruct (decide (k = "status")) as [->|Hs].
    { rewrite messagesAt_status.
      destruct (get fd "status"); try case_decide; intros [= <-];
        by split; [right; right|]. }
    by rewrite messagesAt_other.
Qed.

Lemma every_invalid_field_reported_witness :
  exists fe,
    createInvoice quietEnv noState (form "c1" "-3" "overdue") emptyWorld =
      (Return {| errors := Some fe;
                 message := Some "Missing Fields. Failed to create invoices." |},
       emptyWorld)
    /\ is_Some (fe !! "amount") /\ is_Some (fe !! "status")
    /\ fe !! "customerId" = None.
Proof.
  destruct (every_invalid_field_reported quietEnv "inv-42" noState
              (form "c1" "-3" "overdue") emptyWorld eq_refl)
    as (fe & Hc & _ & Hcust & Ham & Hst & _).
  exists fe. split; [exact Hc|].
  split; [by apply Ham|]. split; [by apply Hst|].
  destruct (fe !! "customerId") as [ms|]; [|done].
  destruct Hcust as [Hcust _].
  specialize (Hcust (ex_intro _ ms eq_refl)). discriminate.
Defined.

(** X7.  A form that has no entry named customerId, amount or status (the
    empty form, for one) is rejected with one message for each of the
    three: the two custom type messages and, because a missing amount
    coerces to 0, the amount message about $0. *)
Theorem missing_fields_all_reported env id st fd w :
  "customerId" ∉ fd.*1 -> "amount" ∉ fd.*1 -> "status" ∉ fd.*1 ->
  createInvoice env st fd w =
    (Return {| errors :=
                 Some (<["status" := ["Please select an invoice status"]]>
                         (<["amount" := ["Please enter an amount greater than $0."]]>
                            (<["customerId" := ["Please select a customer"]]> ∅)));
               message := Some "Missing Fields. Failed to create invoices." |},
     w)
  /\ updateInvoice env id st fd w =
       (Return {| errors :=
                    Some (<["status" := ["Please select an invoice status"]]>
                            (<["amount" := ["Please enter an amount greater than $0."]]>
                               (<["customerId" := ["Please select a customer"]]> ∅)));
                  message := Some "Missing Fields. Failed to update invoice" |},
        w).
Proof.
  intros Hc%get_null_iff Ha%get_null_iff Hs%get_null_iff.
  rewrite createInvoice_run, updateInvoice_run.
  unfold validationIssues. rewrite Hc, Ha, Hs. by split.
Qed.

Lemma missing_fields_all_reported_witness :
  createInvoice quietEnv noState [] twoInvoices =
    (Return {| errors :=
                 Some (<["status" := ["Please select an invoice status"]]>
                         (<["amount" := ["Please enter an amount greater than $0."]]>
                            (<["customerId" := ["Please select a customer"]]> ∅)));
               message := Some "Missing Fields. Failed to create invoices." |},
     twoInvoices).
Proof.
  refine (proj1 (missing_fields_all_reported quietEnv "inv-42" noState []
                   twoInvoices _ _ _)); apply not_elem_of_nil.
Defined.

(** *** The table under updates and deletions *)

Lemma deleteInvoice_run env id w :
  deleteInvoice env id w =
    match sql_raises env (invoices w) (DELETE_FROM_invoices id) with
    | Some e => (Throw e, logged w [ev_sql (DELETE_FROM_invoices id)])
    | None =>
        (Return tt,
         mkWorld (filter (fun r => inv_id r <> id) (invoices w))
           (trace w ++ [ev_sql (DELETE_FROM_invoices id);
                        ev_revalidatePath "/dashboard/invoices"]))
    end.
Proof.
  unfold deleteInvoice, bind, sql, revalidatePath, log, bind, logged. cbn.
  destruct (sql_raises env (invoices w) (DELETE_FROM_invoices id)); cbn;
    [done|]. by rewrite <- app_assoc.
Qed.

Lemma filter_no_match id (table : list Invoice) :
  Forall (fun r => inv_id r <> id) table ->
  filter (fun r => inv_id r <> id) table = table.
Proof.
  induction 1 as [|r table Hr _ IH]; [done|].
  by rewrite filter_cons_True, IH.
Qed.

Lemma update_no_match c a s id (table : list Invoice) :
  Forall (fun r => inv_id r <> id) table ->
  map (fun r => if String.eqb (inv_id r) id
                then mkInvoice (inv_id r) c a s (inv_date r)
                else r) table = table.
Proof.
  induction 1 as [|r table Hr _ IH]; [done|].
  cbn. rewrite IH. by destruct (String.eqb_spec (inv_id r) id).
Qed.

(** X8.  An accepted update whose identifier matches no row is not an
    error: when the statement does not raise, the table is left exactly
    as it was, and [updateInvoice] still invalidates the listing and
    redirects. *)
Theorem update_of_unknown_id_changes_nothing env id st fd w :
  accepts UpdateInvoice fd = true ->
  sql_raises env (invoices w) (updateStatement id fd) = None ->
  Forall (fun r => inv_id r <> id) (invoices w) ->
  updateInvoice env id st fd w =
    (Throw (NEXT_REDIRECT "/dashboard/invoices"),
     mkWorld (invoices w)
       (trace w ++ [ev_sql (updateStatement id fd);
                    ev_revalidatePath "/dashboard/invoices";
                    ev_redirect "/dashboard/invoices"])).
Proof.
  rewrite UpdateInvoice_CreateInvoice.
  intros Hacc%accepts_validationIssues Hsql Hno.
  rewrite updateInvoice_run, Hacc. cbv zeta. rewrite Hsql.
  unfold updateStatement. cbn [execute]. by rewrite update_no_match.
Qed.

Lemma update_of_unknown_id_changes_nothing_witness :
  updateInvoice quietEnv "inv-77" noState (form "c2" "99.50" "paid")
    twoInvoices =
    (Throw (NEXT_REDIRECT "/dashboard/invoices"),
     mkWorld (invoices twoInvoices)
       [ev_sql (UPDATE_invoices_SET (Str "c2") (Num (number_of_Z 9950))
                  (Str "paid") "inv-77");
        ev_revalidatePath "/dashboard/invoices";
        ev_redirect "/dashboard/invoices"]).
Proof.
  refine (update_of_unknown_id_changes_nothing quietEnv "inv-77" noState
            (form "c2" "99.50" "paid") twoInvoices eq_refl eq_refl _).
  repeat constructor; discriminate.
Defined.

(** X9.  After a deletion that did not raise, the table holds exactly the
    rows it held before whose identifier is not [id], each as often as
    before and in their former order: it is the former table filtered on
    that condition.  In particular, when no row had that identifier the
    table is unchanged, and the listing is invalidated all the same. *)
Theorem delete_removes_exactly_the_rows_of_id env id w :
  sql_raises env (invoices w) (DELETE_FROM_invoices id) = None ->
  invoices (deleteInvoice env id w).2
    = filter (fun r => inv_id r <> id) (invoices w)
  /\ (forall r, r ∈ invoices (deleteInvoice env id w).2
                <-> r ∈ invoices w /\ inv_id r <> id)
  /\ invoices (deleteInvoice env id w).2 `sublist_of` invoices w
  /\ (Forall (fun r => inv_id r <> id) (invoices w) ->
      deleteInvoice env id w =
        (Return tt,
         mkWorld (invoices w)
           (trace w ++ [ev_sql (DELETE_FROM_invoices id);
                        ev_revalidatePath "/dashboard/invoices"]))).
Proof.
  intros Hsql. rewrite deleteInvoice_run, Hsql. cbn [snd invoices].
  split; [|split; [|split]].
  - reflexivity.
  - intros r. rewrite list_elem_of_filter. tauto.
  - apply sublist_filter.
  - intros Hno. by rewrite filter_no_match.
Qed.

Lemma delete_removes_exactly_the_rows_of_id_witness :
  invoices (deleteInvoice quietEnv "inv-42" twoInvoices).2
    = [mkInvoice "inv-43" (Str "c3") (Num (number_of_Z 500)) (Str "paid")
         (Str "2026-02-01")]
  /\ deleteInvoice quietEnv "inv-99" twoInvoices =
       (Return tt,
        mkWorld (invoices twoInvoices)
          [ev_sql (DELETE_FROM_invoices "inv-99");
           ev_revalidatePath "/dashboard/invoices"]).
Proof.
  split.
  - exact (proj1 (delete_removes_exactly_the_rows_of_id quietEnv
                    "inv-42" twoInvoices eq_refl)).
  - refine (proj2 (proj2 (proj2 (delete_removes_exactly_the_rows_of_id
                                   quietEnv "inv-99" twoInvoices eq_refl)))
              _).
    repeat constructor; discriminate.
Defined.

(** X10.  Deleting is idempotent: [deleteInvoice] run twice with the same
    identifier, neither statement raising, leaves the table that one run
    leaves; the second run still sends its statement and invalidates the
    listing again. *)
Theorem delete_twice_is_delete_once env id w :
  sql_raises env (invoices w) (DELETE_FROM_invoices id) = None ->
  sql_raises env (invoices (deleteInvoice env id w).2)
    (DELETE_FROM_invoices id) = None ->
  (deleteInvoice env id ;; deleteInvoice env id)%action w =
    (Return tt,
     mkWorld (invoices (deleteInvoice env id w).2)
       (trace w ++ [ev_sql (DELETE_FROM_invoices id);
                    ev_revalidatePath "/dashboard/invoices";
                    ev_sql (DELETE_FROM_invoices id);
                    ev_revalidatePath "/dashboard/invoices"])).
Proof.
  intros H1 H2. unfold bind at 1.
  rewrite (deleteInvoice_run env id w) in *. rewrite H1 in *.
  cbn [snd invoices] in H2.
  rewrite deleteInvoice_run. cbn [invoices trace snd]. rewrite H2.
  rewrite list_filter_filter_l by done.
  by rewrite <- app_assoc.
Qed.

Lemma delete_twice_is_delete_once_witness :
  (deleteInvoice quietEnv "inv-42" ;; deleteInvoice quietEnv "inv-42")%action
    twoInvoices =
    (Return tt,
     mkWorld
       [mkInvoice "inv-43" (Str "c3") (Num (number_of_Z 500)) (Str "paid")
          (Str "2026-02-01")]
       [ev_sql (DELETE_FROM_invoices "inv-42");
        ev_revalidatePath "/dashboard/invoices";
        ev_sql (DELETE_FROM_invoices "inv-42");
        ev_revalidatePath "/dashboard/invoices"]).
Proof.
  exact (delete_twice_is_delete_once quietEnv "inv-42" twoInvoices
           eq_refl eq_refl).
Defined.

(** X11.  [createInvoice] never alters or removes a row: whatever the form
    and whatever the database answers, the table afterwards is the table
    before followed by at most one new row, and a row is added exactly
    when the form was accepted and the insertion did not raise. *)
Theorem createInvoice_only_appends env st fd w :
  exists new,
    invoices (createInvoice env st fd w).2 = invoices w ++ new
    /\ (new = [] \/ new = [insertedRow env (invoices w) fd])
    /\ (new <> [] <->
        accepts CreateInvoice fd = true
        /\ sql_raises env (invoices w) (insertStatement env fd) = None).
Proof.
  setoid_rewrite accepts_validationIssues. rewrite createInvoice_run.
  destruct (validationIssues fd) as [|i error]; cbv zeta.
  - destruct (sql_raises env (invoices w) (insertStatement env fd)).
    + exists []. cbn. rewrite app_nil_r.
      split; [done|]. split; [by left|]. split; [done|by intros [_ ?]].
    + exists [insertedRow env (invoices w) fd]. cbn.
      split; [done|]. split; [by right|]. by split.
  - exists []. cbn. rewrite app_nil_r.
    split; [done|]. split; [by left|]. split; [done|by intros [? _]].
Qed.

(** X12.  Inserting and then deleting the new row gives the table back:
    if no row has the identifier the storage assigns, an accepted
    [createInvoice] followed by [deleteInvoice] of that identifier, neither
    statement raising, leaves the table as it was before the two calls. *)
Theorem create_then_delete_restores_the_table env st fd w :
  accepts CreateInvoice fd = true ->
  sql_raises env (invoices w) (insertStatement env fd) = None ->
  Forall (fun r => inv_id r <> sql_fresh_id env (invoices w)) (invoices w) ->
  sql_raises env (invoices (createInvoice env st fd w).2)
    (DELETE_FROM_invoices (sql_fresh_id env (invoices w))) = None ->
  invoices
    (deleteInvoice env (sql_fresh_id env (invoices w))
       (createInvoice env st fd w).2).2
  = invoices w.
Proof.
  intros Hacc%accepts_validationIssues Hins Hfresh.
  rewrite createInvoice_run, Hacc. cbv zeta. rewrite Hins.
  cbn [snd invoices]. intros Hdel.
  rewrite deleteInvoice_run. cbn [invoices]. rewrite Hdel. cbn [snd invoices].
  unfold insertStatement. cbn [execute].
  rewrite filter_app, filter_no_match by done.
  rewrite filter_cons_False, filter_nil, app_nil_r; [done|].
  intros Hne. by apply Hne.
Qed.

Lemma create_then_delete_restores_the_table_witness :
  invoices
    (deleteInvoice quietEnv "inv-new"
       (createInvoice quietEnv noState (form "c7" "12.5" "paid")
          twoInvoices).2).2
  = invoices twoInvoices.
Proof.
  refine (create_then_delete_restores_the_table quietEnv noState
            (form "c7" "12.5" "paid") twoInvoices eq_refl eq_refl _ eq_refl).
  repeat constructor; discriminate.
Defined.

(** *** The amount of an accepted form *)

Lemma shr_1_nonneg mrs : 0 <= shr_m mrs -> 0 <= shr_m (shr_1 mrs).
Proof.
  destruct mrs as [m r s]. cbn.
  destruct m as [|[p|p|]|[p|p|]]; cbn; lia.
Qed.

Lemma iter_pos_shr_1_nonneg p mrs :
  0 <= shr_m mrs -> 0 <= shr_m (SpecFloat.iter_pos shr_1 p mrs).
Proof.
  revert mrs. induction p as [p IH|p IH|]; intros mrs Hm; cbn.
  - apply IH, IH. by apply shr_1_nonneg.
  - by apply IH, IH.
  - by apply shr_1_nonneg.
Qed.

Lemma shr_fexp_nonneg m e l :
  0 <= m -> 0 <= shr_m (shr_fexp prec emax m e l).1.
Proof.
  intros Hm. unfold shr_fexp, shr.
  assert (H0 : 0 <= shr_m (shr_record_of_loc m l))
    by (by destruct l as [|[]]).
  destruct (_ - e); cbn [fst]; [done| |done].
  by apply iter_pos_shr_1_nonneg.
Qed.

Lemma round_nearest_even_nonneg m l : 0 <= m -> 0 <= round_nearest_even m l.
Proof.
  intros Hm. destruct l as [|[]]; cbn; try lia. destruct (Z.even m); lia.
Qed.

(** Rounding a positive mantissa gives a zero, a finite number or an
    infinity of the given sign: never [NaN]. *)
Lemma binary_round_aux_sign s p e l :
  match binary_round_aux prec emax s (Zpos p) e l with
  | S754_zero s' | S754_infinity s' | S754_finite s' _ _ => s' = s
  | S754_nan => False
  end.
Proof.
  unfold binary_round_aux.
  pose proof (shr_fexp_nonneg (Zpos p) e l ltac:(lia)) as H1.
  destruct (shr_fexp prec emax (Z.pos p) e l) as [mrs' e'].
  cbn [fst] in H1.
  pose proof (shr_fexp_nonneg
                (round_nearest_even (shr_m mrs') (loc_of_shr_record mrs'))
                e' loc_Exact (round_nearest_even_nonneg _ _ H1)) as H2.
  destruct (shr_fexp prec emax _ e' loc_Exact) as [mrs'' e''].
  cbn [fst] in H2.
  destruct (shr_m mrs''); [done| |lia].
  by destruct (e'' <=? emax - prec).
Qed.

(** The product with 100 of a number above zero is a number that is
    neither [NaN] nor below zero. *)
Lemma times_100_not_negative x :
  isNaN x = false -> le x (S754_zero false) = false ->
  isNaN (mul x (number_of_Z 100)) = false
  /\ SFltb (mul x (number_of_Z 100)) (S754_zero false) = false.
Proof.
  intros Hn Hl.
  change (number_of_Z 100) with (S754_finite false 7036874417766400 (-46)).
  destruct x as [s|s| |s m e]; try done.
  - by destruct s.
  - destruct s; [done|]. unfold mul, SFmul. cbn [xorb].
    pose proof (binary_round_aux_sign false (m * 7036874417766400)
                  (e + -46) loc_Exact) as H.
    destruct (binary_round_aux _ _ _ _ _ _); by subst.
Qed.

(** X13.  The amount an accepted form hands to the database is a number
    that is neither [NaN] nor below zero, for [createInvoice] and for
    [updateInvoice] alike. *)
Theorem accepted_amount_is_a_non_negative_number env id fd :
  accepts CreateInvoice fd = true ->
  exists cents,
    insertStatement env fd =
      INSERT_INTO_invoices (get fd "customerId") (Num cents)
        (get fd "status") (Str (isoDay (Date_now env)))
    /\ updateStatement id fd =
         UPDATE_invoices_SET (get fd "customerId") (Num cents)
           (get fd "status") id
    /\ isNaN cents = false
    /\ SFltb cents (S754_zero false) = false.
Proof.
  intros Hacc%accepts_validationIssues%validationIssues_nil_fields.
  destruct Hacc as (_ & [Hn Hl]%orb_false_iff & _).
  exists (mul (coercedAmount fd) (number_of_Z 100)).
  split; [done|]. split; [done|]. by apply times_100_not_negative.
Qed.

Lemma accepted_amount_is_a_non_negative_number_witness :
  exists cents,
    insertStatement quietEnv (form "c1" "1.15" "pending") =
      INSERT_INTO_invoices (Str "c1") (Num cents) (Str "pending")
        (Str "2026-11-03")
    /\ isNaN cents = false
    /\ SFltb cents (S754_zero false) = false.
Proof.
  destruct (accepted_amount_is_a_non_negative_number quietEnv "inv-42"
              (form "c1" "1.15" "pending") eq_refl)
    as (cents & Hi & _ & Hn & Hl).
  exists cents. split; [exact Hi|]. split; assumption.
Defined.

(** X14.  The schema sets no upper bound: a form whose amount coerces to
    positive infinity (the text ["Infinity"], or a literal too large for a
    number such as ["1e999"]) is accepted when its other fields are valid,
    and the amount handed to the database is then positive infinity. *)
Theorem infinite_amount_is_accepted env id fd c :
  get fd "customerId" = Str c ->
  get fd "status" = Str "paid" \/ get fd "status" = Str "pending" ->
  coercedAmount fd = S754_infinity false ->
  accepts CreateInvoice fd = true
  /\ accepts UpdateInvoice fd = true
  /\ insertStatement env fd =
       INSERT_INTO_invoices (Str c) (Num (S754_infinity false))
         (get fd "status") (Str (isoDay (Date_now env)))
  /\ updateStatement id fd =
       UPDATE_invoices_SET (Str c) (Num (S754_infinity false))
         (get fd "status") id.
Proof.
  intros Hc Hs Ha.
  assert (Hacc : accepts CreateInvoice fd = true).
  { apply accepts_validationIssues, validationIssues_nil_fields.
    unfold customerIdInvalid, amountInvalid, statusInvalid.
    rewrite Hc, Ha. by destruct Hs as [->| ->]. }
  split; [done|]. split; [done|].
  unfold insertStatement, updateStatement, amountInCents.
  by rewrite Hc, Ha.
Qed.

Lemma infinite_amount_is_accepted_witness :
  accepts CreateInvoice (form "c1" "1e999" "paid") = true
  /\ insertStatement quietEnv (form "c1" "Infinity" "paid") =
       INSERT_INTO_invoices (Str "c1") (Num (S754_infinity false))
         (Str "paid") (Str "2026-11-03").
Proof.
  split.
  - exact (proj1 (infinite_amount_is_accepted quietEnv "inv-42"
                    (form "c1" "1e999" "paid") "c1" eq_refl
                    (or_introl eq_refl) eq_refl)).
  - exact (proj1 (proj2 (proj2 (infinite_amount_is_accepted quietEnv "inv-42"
                                  (form "c1" "Infinity" "paid") "c1" eq_refl
                                  (or_introl eq_refl) eq_refl)))).
Defined.

(** *** An invariant of the table *)

Lemma insertedRow_wellFormed env table fd :
  accepts CreateInvoice fd = true ->
  wellFormedRow (insertedRow env table fd) = true.
Proof.
  intros Hacc.
  pose proof Hacc as Hfields.
  apply accepts_validationIssues, validationIssues_nil_fields in Hfields.
  destruct Hfields as (Hc & [Hn Hl]%orb_false_iff & Hs).
  unfold customerIdInvalid in Hc. unfold statusInvalid in Hs.
  unfold wellFormedRow, insertedRow, amountInCents. cbn.
  destruct (get fd "customerId"); try done.
  destruct (get fd "status"); try done.
  apply negb_false_iff in Hs. rewrite Hs, andb_true_r.
  apply negb_true_iff. by apply times_100_not_negative.
Qed.

Lemma updatedRow_wellFormed fd r :
  accepts CreateInvoice fd = true ->
  wellFormedRow r = true ->
  wellFormedRow (mkInvoice (inv_id r) (get fd "customerId") (amountInCents fd)
                   (get fd "status") (inv_date r)) = true.
Proof.
  intros Hacc Hr.
  pose proof (insertedRow_wellFormed quietEnv [] fd Hacc) as Hnew.
  clear Hacc. unfold wellFormedRow, insertedRow in *.
  cbn [inv_customer_id inv_amount inv_status inv_date] in *.
  destruct (get fd "customerId"); try done.
  destruct (amountInCents fd); try done.
  destruct (get fd "status"); try done.
  destruct (inv_customer_id r), (inv_amount r), (inv_status r), (inv_date r);
    done.
Qed.

(** X15.  The three mutations keep the table well formed.  If every row has
    a string as customer reference, a number that is not [NaN] as amount,
    the status ["paid"] or ["pending"] and a string as date, then so has
    every row after [createInvoice], after [updateInvoice] and after
    [deleteInvoice], whatever the form, the identifier and the answer of
    the database. *)
Theorem mutations_keep_rows_well_formed env id st fd w :
  Forall (fun r => wellFormedRow r = true) (invoices w) ->
  Forall (fun r => wellFormedRow r = true)
    (invoices (createInvoice env st fd w).2)
  /\ Forall (fun r => wellFormedRow r = true)
       (invoices (updateInvoice env id st fd w).2)
  /\ Forall (fun r => wellFormedRow r = true)
       (invoices (deleteInvoice env id w).2).
Proof.
  intros Hw.
  rewrite createInvoice_run, updateInvoice_run, deleteInvoice_run.
  split; [|split].
  - destruct (validationIssues fd) as [|i error] eqn:He; [|done]. cbv zeta.
    destruct (sql_raises _ _ _); [done|]. cbn.
    apply Forall_app. split; [done|].
    constructor; [|done].
    by apply (insertedRow_wellFormed env (invoices w) fd),
      accepts_validationIssues.
  - destruct (validationIssues fd) as [|i error] eqn:He; [|done]. cbv zeta.
    destruct (sql_raises _ _ _); [done|]. cbn.
    apply Forall_fmap. eapply Forall_impl; [exact Hw|].
    intros r Hr. cbn. destruct (String.eqb (inv_id r) id); [|done].
    apply updatedRow_wellFormed; [by apply accepts_validationIssues | done].
  - destruct (sql_raises _ _ _); [done|]. cbn.
    rewrite Forall_forall in Hw. apply Forall_forall.
    intros r [_ Hr]%list_elem_of_filter. by apply Hw.
Qed.

Lemma mutations_keep_rows_well_formed_witness :
  Forall (fun r => wellFormedRow r = true)
    (invoices (createInvoice quietEnv noState (form "c7" "12.5" "paid")
                 twoInvoices).2).
Proof.
  refine (proj1 (mutations_keep_rows_well_formed quietEnv "inv-42" noState
                   (form "c7" "12.5" "paid") twoInvoices _)).
  repeat constructor.
Defined.

(** *** What the actions do not read *)

(** X16.  [updateInvoice] reads the form only through customerId, amount
    and status and does not read the previous state: two forms that agree
    on these three fields are treated alike, so an [id] or [date] entry in
    the form changes nothing, and the row written is always the one named
    by the bound [id] argument. *)
Theorem updateInvoice_reads_three_fields env id st st' fd fd' w :
  get fd' "customerId" = get fd "customerId" ->
  get fd' "amount" = get fd "amount" ->
  get fd' "status" = get fd "status" ->
  updateInvoice env id st' fd' w = updateInvoice env id st fd w
  /\ (forall x d,
        updateInvoice env id st' (("id", x) :: ("date", d) :: fd') w =
          updateInvoice env id st fd w)
  /\ (forall q, q ∈ statements (added w (updateInvoice env id st' fd' w)) ->
                exists c a s, q = UPDATE_invoices_SET c a s id).
Proof.
  intros Hc Ha Hs.
  assert (Hsame : forall g, get g "customerId" = get fd "customerId" ->
                            get g "amount" = get fd "amount" ->
                            get g "status" = get fd "status" ->
                            updateInvoice env id st' g w
                            = updateInvoice env id st fd w).
  { intros g Hc' Ha' Hs'. unfold updateInvoice, rawFields.
    by rewrite Hc', Ha', Hs'. }
  split; [by apply Hsame|]. split; [intros x d; by apply Hsame|].
  intros q. rewrite updateInvoice_run.
  destruct (validationIssues fd') as [|i error]; cbv zeta.
  - destruct (sql_raises _ _ _); unfold logged; rewrite added_app; cbn;
      rewrite list_elem_of_singleton; intros ->; unfold updateStatement;
      by eexists _, _, _.
  - rewrite added_same. by intros ?%not_elem_of_nil.
Qed.

Lemma updateInvoice_reads_three_fields_witness :
  updateInvoice quietEnv "inv-42" noState
    (("id", entry_string "inv-43") :: ("date", entry_string "1999-12-31")
     :: form "c2" "99.50" "paid") twoInvoices
  = updateInvoice quietEnv "inv-42" noState (form "c2" "99.50" "paid")
      twoInvoices.
Proof.
  exact (proj1 (proj2 (updateInvoice_reads_three_fields quietEnv "inv-42"
                         noState noState (form "c2" "99.50" "paid")
                         (form "c2" "99.50" "paid") twoInvoices
                         eq_refl eq_refl eq_refl))
           (entry_string "inv-43") (entry_string "1999-12-31")).
Defined.

(** *** Authentication *)

(** X17.  [authenticate] never lets an authentication error reach its
    caller and writes nothing: it sends no statement, invalidates and
    redirects nothing and leaves the table alone.  When it returns a
    message, the provider raised an authentication error and the message
    is one of the two literals. *)
Theorem authenticate_contains_auth_errors env prev fd w :
  (forall type, (authenticate env prev fd w).1 <> Throw (AuthError type))
  /\ added w (authenticate env prev fd w) = [ev_signIn "credentials" fd]
  /\ invoices (authenticate env prev fd w).2 = invoices w
  /\ (forall m,
        (authenticate env prev fd w).1 = Return (Some m) ->
        (m = "Invalid credentials." \/ m = "Something went wrong.")
        /\ exists type,
             signIn_raises env "credentials" fd = Some (AuthError type)).
Proof.
  unfold authenticate, try_catch, bind, signIn, bind, log, throw, ret, added.
  cbn.
  destruct (signIn_raises env "credentials" fd) as [[type| |]|]; cbn;
    try (destruct (String.eqb type "CredentialsSignin"); cbn);
    rewrite drop_app_length;
    (split; [done|]); (split; [done|]); (split; [done|]);
    intros m; try done; intros [= <-]; (split; [auto|by eexists]).
Qed.
